(** * CRT-571 card dispenser driver: framing, handshake and reply decoding

    A shallow embedding of the Go package [crt571].  The repository holds
    three revisions of the driver:

    - [src/unnamed/part_000]: [request] returns a [*CRT571Response], the
      facade is [Command]; embedded at top level, under the source's names;
    - [src/unnamed/part_001]: [request] returns two byte slices, the facade
      is [Initialization] and [StatusRequest]; embedded in [Module Rev1];
    - [src/crt571.go]: [MakeRequest] and [Exchange] with a stubbed
      checksum; embedded in [Module Rev0].

    [read], [exchange], [bccCalc] and [bccCheck] are literally the same in
    the first two revisions and are embedded once.

    Bytes are integers in [0, 256); Go's [int] is an unbounded integer (no
    length in this program comes near 2^63); [uint16(x)] is written out as
    [x mod 65536].  A slice is the list of the elements it shows: every
    slice this program indexes has its capacity equal to its length.  The
    serial port is not code of this package: it is a script of the results
    its [Read] and [Write] calls give, threaded through a state monad
    together with the log. *)

From Stdlib Require Import ZArith String Ascii Bool Lia List Permutation.
Import ListNotations.
Open Scope string_scope.
Open Scope list_scope.
Open Scope Z_scope.

(* ------------------------------------------------------------------ *)
(** ** Bytes and Go values *)

Definition is_byte (b : Z) : Prop := 0 <= b < 256.

(** [byte(x)] and [uint16(x)] conversions. *)
Definition to_byte (x : Z) : Z := x mod 256.
Definition to_uint16 (x : Z) : Z := x mod 65536.

(** [len(s)] *)
Definition len (s : list Z) : Z := Z.of_nat (length s).

(** Go [error] values met in the package: [io.EOF], a value made by
    [errors.New], and whatever else the serial port returns. *)
Inductive error : Type :=
| io_EOF
| errors_New (msg : string)
| port_error (msg : string).

Definition is_EOF (e : error) : bool :=
  match e with io_EOF => true | _ => false end.

(** Run-time panics of the Go runtime. *)
Inductive panic : Type :=
| index_out_of_range (i : Z) (size : Z)
| slice_bounds_out_of_range (lo hi : Z) (capacity : Z)
| nil_dereference.

(** One call of [log.Printf] / [log.Print]: the format string as written
    in the source, and the argument values. *)
Inductive logarg : Type :=
| ABytes (bs : list Z)
| AByte (b : Z)
| AInt (n : Z)
| AStr (s : string)
| AErr (e : error).

Record logentry : Type := Log { log_format : string; log_args : list logarg }.

(* ------------------------------------------------------------------ *)
(** ** The serial port and the state monad *)

(** What one [port.Read] call delivers: the bytes it stores in the buffer
    it was given and the error it returns with them. *)
Definition readevent : Type := (list Z * option error)%type.

Record World : Type := mkWorld {
  rx : list readevent;          (* results of the coming Read calls *)
  wr : list (option error);     (* results of the coming Write calls *)
  sent : list (list Z);         (* what was passed to Write so far *)
  logs : list logentry          (* the log so far *)
}.

Inductive result (A : Type) : Type :=
| Ret (a : A) (w : World)
| Panic (p : panic) (w : World)
| Blocked (w : World).          (* a Read that never returns *)
Arguments Ret {A} a w.
Arguments Panic {A} p w.
Arguments Blocked {A} w.

Definition world_of {A} (r : result A) : World :=
  match r with Ret _ w | Panic _ w | Blocked w => w end.

Definition M (A : Type) : Type := World -> result A.

Definition ret {A} (a : A) : M A := fun w => Ret a w.

Definition bind {A B} (m : M A) (k : A -> M B) : M B :=
  fun w => match m w with
           | Ret a w' => k a w'
           | Panic p w' => Panic p w'
           | Blocked w' => Blocked w'
           end.

Definition throw {A} (p : panic) : M A := fun w => Panic p w.

Declare Scope go_scope.
Delimit Scope go_scope with go.
Notation "x <- m ;; k" := (bind m (fun x => k))
  (at level 61, m at next level, right associativity) : go_scope.
Notation "' p <- m ;; k" := (bind m (fun p => k))
  (at level 61, p pattern, m at next level, right associativity) : go_scope.
Notation "m ;;; k" := (bind m (fun _ => k))
  (at level 61, right associativity) : go_scope.
Open Scope go_scope.

(** [log.Printf(format, args...)] *)
Definition log_Printf (format : string) (args : list logarg) : M unit :=
  fun w => Ret tt (mkWorld (rx w) (wr w) (sent w) (logs w ++ [Log format args])).

(** [port.Write(data)]: the bytes are recorded; the script says whether the
    call fails.  With the script used up the port accepts the write. *)
Definition port_Write (data : list Z) : M (Z * option error) :=
  fun w =>
    let sent' := sent w ++ [data] in
    match wr w with
    | Some e :: wr' => Ret (0, Some e) (mkWorld (rx w) wr' sent' (logs w))
    | None :: wr' => Ret (len data, None) (mkWorld (rx w) wr' sent' (logs w))
    | [] => Ret (len data, None) (mkWorld (rx w) [] sent' (logs w))
    end.

(** [port.Read(buf)] for a buffer of [capacity] bytes: at most [capacity]
    bytes of the next event are stored, their count is returned.  With the
    script used up the call never returns. *)
Definition port_Read (capacity : Z) : M (list Z * option error) :=
  fun w =>
    match rx w with
    | (d, e) :: rx' =>
        Ret (firstn (Z.to_nat capacity) d, e) (mkWorld rx' (wr w) (sent w) (logs w))
    | [] => Blocked w
    end.

(** [s[i]] *)
Definition index (s : list Z) (i : Z) : M Z :=
  if (0 <=? i) && (i <? len s) then ret (nth (Z.to_nat i) s 0)
  else throw (index_out_of_range i (len s)).

(** [s[lo:hi]] *)
Definition sub (s : list Z) (lo hi : Z) : list Z :=
  firstn (Z.to_nat (hi - lo)) (skipn (Z.to_nat lo) s).

Definition slice (s : list Z) (lo hi : Z) : M (list Z) :=
  if (0 <=? lo) && (lo <=? hi) && (hi <=? len s) then ret (sub s lo hi)
  else throw (slice_bounds_out_of_range lo hi (len s)).

(** The bytes [d] stored from position [i] of [buf] (what [Read(buf[i:])]
    does to the array under [buf]). *)
Definition store (buf : list Z) (i : Z) (d : list Z) : list Z :=
  firstn (Z.to_nat i) buf ++ d ++ skipn (Z.to_nat i + length d) buf.

(** [string(bs)]: the bytes as a Go string. *)
Definition string_of_bytes (bs : list Z) : string :=
  fold_right (fun b s => String (ascii_of_N (Z.to_N b)) s) EmptyString bs.

(** Go map lookups [m[k]]: the value of the first (only) entry for the
    key, the zero value of the element type when there is none. *)
Fixpoint lookup_byte {V} (zero : V) (m : list (Z * V)) (k : Z) : V :=
  match m with
  | [] => zero
  | (k', v) :: m' => if k' =? k then v else lookup_byte zero m' k
  end.

Fixpoint lookup_string {V} (zero : V) (m : list (string * V)) (k : string) : V :=
  match m with
  | [] => zero
  | (k', v) :: m' => if String.eqb k' k then v else lookup_string zero m' k
  end.

(** [fmt.Sprintf] of the verb [%x] for a byte: lower-case hexadecimal
    without padding. *)
Definition hex_digit (d : Z) : ascii :=
  if d <? 10 then ascii_of_N (Z.to_N (48 + d)) else ascii_of_N (Z.to_N (87 + d)).

Definition fmt_x (b : Z) : string :=
  if b <? 16 then String (hex_digit b) EmptyString
  else String (hex_digit (b / 16)) (String (hex_digit (b mod 16)) EmptyString).

(* ------------------------------------------------------------------ *)
(** ** Protocol constants and name tables (data of the package) *)

Definition CRT571_BUFFER_MAX_LENGTH : Z := 1024.


(* Transpost constants *)
Definition CRT571_STX : Z := 0xf2.
Definition CRT571_ETX : Z := 0x03.
Definition CRT571_CMT : Z := 0x43.
Definition CRT571_PMT : Z := 0x50.
Definition CRT571_EMT : Z := 0x45.
Definition CRT571_EMT2 : Z := 0x4e.
Definition CRT571_ACK : Z := 0x06.
Definition CRT571_NAK : Z := 0x15.
Definition CRT571_EOT : Z := 0x04.

(* Command (CM) constants *)
Definition CRT571_CM_INITIALIZE : Z := 0x30.
Definition CRT571_CM_STATUS_REQUEST : Z := 0x31.
Definition CRT571_CM_CARD_MOVE : Z := 0x32.
Definition CRT571_CM_CARD_ENTRY : Z := 0x33.
Definition CRT571_CM_CARD_TYPE : Z := 0x50.
Definition CRT571_CM_CPUCARD_CONTROL : Z := 0x51.
Definition CRT571_CM_SAM_CARD_CONTROL : Z := 0x52.
Definition CRT571_CM_SLE4442_4428_CARD_CONTROL : Z := 0x53.
Definition CRT571_CM_IIC_MEMORYCARD : Z := 0x54.
Definition CRT571_CM_RFCARD_CONTROL : Z := 0x60.
Definition CRT571_CM_CARD_SERIAL_NUMBER : Z := 0xa2.
Definition CRT571_CM_READ_CARD_CONFIG : Z := 0xa3.
Definition CRT571_CM_READ_CRT571_VERSION : Z := 0xa4.
Definition CRT571_CM_RECYCLEBIN_COUNTER : Z := 0xa5.

(* Card Status Code(st0,st1,st2) *)
Definition CRT571_ST0_NO_CARD : Z := 0x30.
Definition CRT571_ST0_ONE_CARD_IN_GATE : Z := 0x31.
Definition CRT571_ST0_ONE_CARD_ON_POSITION : Z := 0x32.
Definition CRT571_ST1_NO_CARD_IN_STACKER : Z := 0x30.
Definition CRT571_ST1_FEW_CARD_IN_STACKER : Z := 0x31.
Definition CRT571_ST1_ENOUGH_CARDS_IN_BOX : Z := 0x32.
Definition CRT571_ST2_ERROR_CARD_BIN_NOT_FULL : Z := 0x30.
Definition CRT571_ST2_ERROR_CARD_BIN_FULL : Z := 0x31.

(* Parameters for command INITIALIZE (PM=0x30) *)
Definition CRT571_PM_INITIALIZE_MOVE_CARD : Z := 0x30.
Definition CRT571_PM_INITIALIZE_MOVE_CARD_RETRACT : Z := 0x34.
Definition CRT571_PM_INITIALIZE_CAPTURE_CARD : Z := 0x31.
Definition CRT571_PM_INITIALIZE_CAPTURE_CARD_RETRACT : Z := 0x35.
Definition CRT571_PM_INITIALIZE_DONT_MOVE_CARD : Z := 0x33.
Definition CRT571_PM_INITIALIZE_DONT_MOVE_CARD_RETRACT : Z := 0x37.

(* Parameters for command Status Request (PM=0x31) *)
Definition CRT571_PM_STATUS_DEVICE : Z := 0x30.
Definition CRT571_PM_STATUS_SENSOR : Z := 0x31.

(* Parameters for command Card Move  Request (PM=0x32) *)
Definition CRT571_PM_CARD_MOVE_HOLD : Z := 0x30.
Definition CRT571_PM_CARD_MOVE_IC_POS : Z := 0x31.
Definition CRT571_PM_CARD_MOVE_RF_POS : Z := 0x32.
Definition CRT571_PM_CARD_MOVE_ERROR_BIN : Z := 0x33.
Definition CRT571_PM_CARD_MOVE_GATE : Z := 0x39.

(* Parameters for command Card Entry From output gate (PM=0x33) *)
Definition CRT571_PM_CARD_ENTRY_ENABLE : Z := 0x30.
Definition CRT571_PM_CARD_ENTRY_DISABLE : Z := 0x31.

(* Parameters for command Card Type *)
Definition CRT571_PM_CARD_TYPE_IC : Z := 0x30.
Definition CRT571_PM_CARD_TYPE_RF : Z := 0x31.

(* Parameters for command CPU Card Application Opertion *)
Definition CRT571_PM_CPUCARD_CONTROL_COLD_RESET : Z := 0x30.
Definition CRT571_PM_CPUCARD_CONTROL_POWER_DOWN : Z := 0x31.
Definition CRT571_PM_CPUCARD_CONTROL_STATUS_CHECK : Z := 0x32.
Definition CRT571_PM_CPUCARD_CONTROL_TO_APDU : Z := 0x33.
Definition CRT571_PM_CPUCARD_CONTROL_T1_APDU : Z := 0x34.
Definition CRT571_PM_CPUCARD_CONTROL_HOT_RESET : Z := 0x38.
Definition CRT571_PM_CPUCARD_CONTROL_AUTO_APDU : Z := 0x39.

(* Parameters for command SAMCard Application Operation *)
Definition CRT571_PM_SAMCARD_CONTROL_COLD_RESET : Z := 0x30.
Definition CRT571_PM_SAMCARD_CONTROL_POWER_DOWN : Z := 0x31.
Definition CRT571_PM_SAMCARD_CONTROL_STATUS_CHECK : Z := 0x32.
Definition CRT571_PM_SAMCARD_CONTROL_TO_APDU : Z := 0x33.
Definition CRT571_PM_SAMCARD_CONTROL_T1_APDU : Z := 0x34.
Definition CRT571_PM_SAMCARD_CONTROL_HOT_RESET : Z := 0x38.
Definition CRT571_PM_SAMCARD_CONTROL_AUTO_APDU : Z := 0x39.
Definition CRT571_PM_SAMCARD_CONTROL_STAND : Z := 0x40.

(* Parameters for command SLE4442/4428CARD CONTROL *)
Definition CRT571_PM_SLE4442_4428_CARD_CONTROL_RESET : Z := 0x30.
Definition CRT571_PM_SLE4442_4428_CARD_CONTROL_POWER_DOWN : Z := 0x31.
Definition CRT571_PM_SLE4442_4428_CARD_CONTROL_CARD_STATUS : Z := 0x32.
Definition CRT571_PM_SLE4442_4428_CARD_CONTROL_SLE4442_CARD_OPERATE : Z := 0x33.
Definition CRT571_PM_SLE4442_4428_CARD_CONTROL_SLE4428_CARD_OPERATE : Z := 0x34.

(* Parameters for command 24C01-24C256Card Operation *)
Definition CRT571_PM_IIC_MEMORYCARD_RESET : Z := 0x30.
Definition CRT571_PM_IIC_MEMORYCARD_POWER_DOWN : Z := 0x31.
Definition CRT571_PM_IIC_MEMORYCARD_STATUS : Z := 0x32.
Definition CRT571_PM_IIC_MEMORYCARD_READ : Z := 0x33.
Definition CRT571_PM_IIC_MEMORYCARD_WRITE : Z := 0x34.

(* Parameters for command Mifare standard card Type A & BT=CL protocol operation *)
Definition CRT571_PM_RFCARD_CONTROL_STARTUP : Z := 0x30.
Definition CRT571_PM_RFCARD_CONTROL_POWER_DOWN : Z := 0x31.
Definition CRT571_PM_RFCARD_CONTROL_STATUS : Z := 0x32.
Definition CRT571_PM_RFCARD_CONTROL_CARD_RW : Z := 0x33.
Definition CRT571_PM_RFCARD_CONTROL_TYPEA_APDU : Z := 0x34.
Definition CRT571_PM_RFCARD_CONTROL_TYPEB_APDU : Z := 0x35.
Definition CRT571_PM_RFCARD_CONTROL_ENABLE_DISABLE : Z := 0x39.

(* Parameters for command Read Card Serial number *)
Definition CRT571_PM_CARD_SERIAL_NUMBER_READ : Z := 0x30.

(* Parameters for command Read Card configuration information *)
Definition CRT571_PM_READ_CARD_CONFIG : Z := 0x30.

(* Parameters for command Read Card software version information *)
Definition CRT571_PM_READ_CRT571_VERSION : Z := 0x30.

(* Parameters for command RECYCLEBIN COUNTER *)
Definition CRT571_PM_RECYCLEBIN_COUNTER_READ : Z := 0x30.
Definition CRT571_PM_RECYCLEBIN_COUNTER_INITIATE : Z := 0x31.

Definition CRT571Commands : list (Z * string) :=
  [
    (CRT571_CM_INITIALIZE, "Initialize CRT-571");
    (CRT571_CM_STATUS_REQUEST, "Inquire status");
    (CRT571_CM_CARD_MOVE, "Card movement");
    (CRT571_CM_CARD_ENTRY, "From output gate");
    (CRT571_CM_CARD_TYPE, "ICCard/RFCard TypeCheck");
    (CRT571_CM_CPUCARD_CONTROL, "CPU Card Applicatio Opertion");
    (CRT571_CM_SAM_CARD_CONTROL, "SAMCard Application Operation");
    (CRT571_CM_SLE4442_4428_CARD_CONTROL, "SLE4442/4428CARD CONTROL");
    (CRT571_CM_IIC_MEMORYCARD, ("24C01" ++ string_of_bytes [226; 128; 148] ++ "24C256Card Operation")%string);
    (CRT571_CM_RFCARD_CONTROL, "Mifare standard card Type A & B T=CL protocol operation (13.56 MHZ)");
    (CRT571_CM_CARD_SERIAL_NUMBER, "Read Card Serial number");
    (CRT571_CM_READ_CARD_CONFIG, "Read Card configuration information");
    (CRT571_CM_READ_CRT571_VERSION, "Read Card software version information");
    (CRT571_CM_RECYCLEBIN_COUNTER, "Recycle bin counter")
  ].

Definition CRT571CardStatus : list (string * list (Z * string)) :=
  [
    ("ST0",
      [
       (CRT571_ST0_NO_CARD, "No Card in CRT-571");
       (CRT571_ST0_ONE_CARD_IN_GATE, "One Card in gate");
       (CRT571_ST0_ONE_CARD_ON_POSITION, "One Card on RF/IC Card Position")
      ]);
    ("ST1",
      [
       (CRT571_ST1_NO_CARD_IN_STACKER, "No Card in stacker");
       (CRT571_ST1_FEW_CARD_IN_STACKER, "Few Card in stacker");
       (CRT571_ST1_ENOUGH_CARDS_IN_BOX, "Enough Cards in card box")
      ]);
    ("ST2",
      [
       (CRT571_ST2_ERROR_CARD_BIN_NOT_FULL, "Error card bin not full");
       (CRT571_ST2_ERROR_CARD_BIN_FULL, "Error card bin full")
      ])
  ].

Definition CRT571PMInfo : list (Z * list (Z * string)) :=
  [
    (CRT571_CM_INITIALIZE,
      [
       (CRT571_PM_INITIALIZE_MOVE_CARD, "If card is inside, move card to cardholding position");
       (CRT571_PM_INITIALIZE_MOVE_CARD_RETRACT, "If card is inside, move card to cardholding position and retract counter will work");
       (CRT571_PM_INITIALIZE_CAPTURE_CARD, "If card is inside, capture card error card bin");
       (CRT571_PM_INITIALIZE_CAPTURE_CARD_RETRACT, "If card is inside, capture card error card bin and retract counter will work");
       (CRT571_PM_INITIALIZE_DONT_MOVE_CARD, "If card is inside, does not move the card");
       (CRT571_PM_INITIALIZE_DONT_MOVE_CARD_RETRACT, "If card is inside, does not move the card and retract counter will work")
      ]);
    (CRT571_CM_STATUS_REQUEST,
      [
       (CRT571_PM_STATUS_DEVICE, "Report CRT-571 status");
       (CRT571_PM_STATUS_SENSOR, "Report sensor status")
      ]);
    (CRT571_CM_CARD_MOVE,
      [
       (CRT571_PM_CARD_MOVE_HOLD, "Move card to card holding positon");
       (CRT571_PM_CARD_MOVE_IC_POS, "Move card to IC card position");
       (CRT571_PM_CARD_MOVE_RF_POS, "Move card to RF card position");
       (CRT571_PM_CARD_MOVE_ERROR_BIN, "Move card to error card bin");
       (CRT571_PM_CARD_MOVE_GATE, "Move card to gate")
      ]);
    (CRT571_CM_CARD_ENTRY,
      [
       (CRT571_PM_CARD_ENTRY_ENABLE, "Enable card entry from output gate");
       (CRT571_PM_CARD_ENTRY_DISABLE, "Disable card entry from ouput gate")
      ]);
    (CRT571_CM_CARD_TYPE,
      [
       (CRT571_PM_CARD_TYPE_IC, "Autocheck ICCardType");
       (CRT571_PM_CARD_TYPE_RF, "Autocheck RFCardType")
      ]);
    (CRT571_CM_CPUCARD_CONTROL,
      [
       (CRT571_PM_CPUCARD_CONTROL_COLD_RESET, "CPUCard cold reset");
       (CRT571_PM_CPUCARD_CONTROL_POWER_DOWN, "CPUCard power down");
       (CRT571_PM_CPUCARD_CONTROL_STATUS_CHECK, "CPUCard status check");
       (CRT571_PM_CPUCARD_CONTROL_TO_APDU, "T=0  CPUCard APDU data exchange");
       (CRT571_PM_CPUCARD_CONTROL_T1_APDU, "T=1  CPUCard APDU data exchange");
       (CRT571_PM_CPUCARD_CONTROL_HOT_RESET, "CPUCard hot reset");
       (CRT571_PM_CPUCARD_CONTROL_AUTO_APDU, "Auto distinguish T=0/T=1 CPUCard APDU data exchange")
      ]);
    (CRT571_CM_SAM_CARD_CONTROL,
      [
       (CRT571_PM_SAMCARD_CONTROL_COLD_RESET, "SAMCard cold reset");
       (CRT571_PM_SAMCARD_CONTROL_POWER_DOWN, "SAMCard power down");
       (CRT571_PM_SAMCARD_CONTROL_STATUS_CHECK, "SAMCard status check");
       (CRT571_PM_SAMCARD_CONTROL_TO_APDU, "T=0  SAMCard APDU data exchange");
       (CRT571_PM_SAMCARD_CONTROL_T1_APDU, "T=1  SAMCard APDU data exchange");
       (CRT571_PM_SAMCARD_CONTROL_HOT_RESET, "SAMCard hot reset");
       (CRT571_PM_SAMCARD_CONTROL_AUTO_APDU, "Auto distinguish T=0/T=1 CPUCard APDU data exchange");
       (CRT571_PM_SAMCARD_CONTROL_STAND, "Choose SAMCard stand")
      ]);
    (CRT571_CM_SLE4442_4428_CARD_CONTROL,
      [
       (CRT571_PM_SLE4442_4428_CARD_CONTROL_RESET, "SLE4442/4428Card reset");
       (CRT571_PM_SLE4442_4428_CARD_CONTROL_POWER_DOWN, "SLE4442/4428Card power down");
       (CRT571_PM_SLE4442_4428_CARD_CONTROL_CARD_STATUS, "Browse SLE4442/4428Card status");
       (CRT571_PM_SLE4442_4428_CARD_CONTROL_SLE4442_CARD_OPERATE, "Operate SLE4442Card");
       (CRT571_PM_SLE4442_4428_CARD_CONTROL_SLE4428_CARD_OPERATE, "Operate SLE4428Card")
      ]);
    (CRT571_CM_IIC_MEMORYCARD,
      [
       (CRT571_PM_IIC_MEMORYCARD_RESET, "IICCard reset");
       (CRT571_PM_IIC_MEMORYCARD_POWER_DOWN, "IICCard down power");
       (CRT571_PM_IIC_MEMORYCARD_STATUS, "IICheck IICCard status");
       (CRT571_PM_IIC_MEMORYCARD_READ, "Read IICCard");
       (CRT571_PM_IIC_MEMORYCARD_WRITE, "Write IICCard")
      ]);
    (CRT571_CM_RFCARD_CONTROL,
      [
       (CRT571_PM_RFCARD_CONTROL_STARTUP, "RF Card startup");
       (CRT571_PM_RFCARD_CONTROL_POWER_DOWN, "RF Card down power");
       (CRT571_PM_RFCARD_CONTROL_STATUS, "RF Card operation status check");
       (CRT571_PM_RFCARD_CONTROL_CARD_RW, "Mifare standard Card read/write");
       (CRT571_PM_RFCARD_CONTROL_TYPEA_APDU, "Type A standard T=CLCard APDU data exchange");
       (CRT571_PM_RFCARD_CONTROL_TYPEB_APDU, "Type B standard T=CLCard APDU data exchange");
       (CRT571_PM_RFCARD_CONTROL_ENABLE_DISABLE, "RF Card enable/disable")
      ]);
    (CRT571_CM_CARD_SERIAL_NUMBER,
      [
       (CRT571_PM_CARD_SERIAL_NUMBER_READ, "Read Card Serial number")
      ]);
    (CRT571_CM_READ_CARD_CONFIG,
      [
       (CRT571_PM_READ_CARD_CONFIG, "Read Card configuration information")
      ]);
    (CRT571_CM_READ_CRT571_VERSION,
      [
       (CRT571_PM_READ_CRT571_VERSION, "Read Card software version information")
      ]);
    (CRT571_CM_RECYCLEBIN_COUNTER,
      [
       (CRT571_PM_RECYCLEBIN_COUNTER_READ, "Read number of counter of Card error card bin");
       (CRT571_PM_RECYCLEBIN_COUNTER_INITIATE, "Initiate card error card bin counter")
      ])
  ].

Definition CRT571Errors : list (string * string) :=
  [
    ("00", "Reception of Undefined Command");
    ("01", "Command Parameter Error");
    ("02", "Command Sequence Error");
    ("03", "Out of Hardware Support Command");
    ("04", "Command Data Error");
    ("05", "IC Card Contact Not Release");
    ("10", "Card Jam");
    ("12", "sensor error");
    ("13", "Too Long-Card");
    ("14", "Too Short-Card");
    ("16", "Card move manually");
    ("40", "Move card when recycling");
    ("41", "Magnent of IC Card Error");
    ("43", "Disable To Move Card To IC Card Position");
    ("45", "Manually Move Card");
    ("50", "Received Card Counter Overflow");
    ("51", "Motor error");
    ("60", "Short Circuit of IC Card Supply Power");
    ("61", "Activiation of Card False");
    ("62", "Command Out Of IC Card Support");
    ("65", "Disablity of IC Card");
    ("66", "Command Out Of IC Current Card Support");
    ("67", "IC Card Transmittion Error");
    ("68", "IC Card Transmittion Overtime");
    ("69", "CPU/SAM Non-Compliance To EMV Standard");
    ("A0", "Empty-Stacker");
    ("A1", "Full-Stacker");
    ("B0", "Not Reset")
  ].

(* ------------------------------------------------------------------ *)
(** ** The service *)

Record CRT571Config : Type := {
  BaudRate : Z;
  Path : string;
  Address : Z;
  ReadTimeout : Z
}.

(** The port handle of the Go struct is the [World] of the monad. *)
Record CRT571Service : Type := {
  config : CRT571Config;
  address : Z
}.

(** [InitCRT571Service], without the opening of the port:
    [service.address = byte(config.Address)]. *)
Definition InitCRT571Service (c : CRT571Config) : CRT571Service :=
  {| config := c; address := to_byte (Address c) |}.

Record CRT571Response : Type := {
  Type_ : Z;
  CardStatus : list Z;
  ST0Message : string;
  ST1Message : string;
  ST2Message : string;
  ErrorCode : list Z;
  ErrorMessage : string;
  DataLen : Z;
  Data : list Z
}.

(** [var response CRT571Response] *)
Definition zero_response : CRT571Response :=
  {| Type_ := 0; CardStatus := []; ST0Message := ""; ST1Message := "";
     ST2Message := ""; ErrorCode := []; ErrorMessage := ""; DataLen := 0;
     Data := [] |}.

(* ------------------------------------------------------------------ *)
(** ** Checksum *)

(** The loop [for i := 0; i < n; i++ { bcc = bcc ^ a[i] }], with
    [steps = n - i] iterations to go. *)
Fixpoint bccCalc_loop (a : list Z) (steps : nat) (i : nat) (bcc : Z) : Z :=
  match steps with
  | O => bcc
  | S steps' => bccCalc_loop a steps' (S i) (Z.lxor bcc (nth i a 0))
  end.

Definition bccCalc (a : list Z) : Z :=
  let bcc := 0 in
  let n := length a in
  bccCalc_loop a n 0 bcc.

Definition bccCheck (bcc : Z) (data : list Z) : M bool :=
  let bcc2 := bccCalc data in
  log_Printf "[INFO] bccCalculate(): data:[% x] bcc:[%x] bcc calculated:[%x]"
             [ABytes data; AByte bcc; AByte bcc2] ;;;
  if bcc =? bcc2 then ret true else ret false.

(** The running exclusive-or of a byte sequence, as the specification
    words it; [bccCalc] is compared with it below. *)
Definition running_xor (bs : list Z) : Z := fold_left Z.lxor bs 0.

(* ------------------------------------------------------------------ *)
(** ** Reading and the exchange *)

(** The loop of [read]; [i] bytes are in [buf] so far.  Every turn takes
    one event of the port's script, so [fuel] above the script's length is
    never used up. *)
Fixpoint read_loop (fuel : nat) (buf : list Z) (i : Z)
  : M (list Z * Z * option error) :=
  match fuel with
  | O => fun w => Blocked w
  | S fuel' =>
      rest <- slice buf i (len buf) ;;
      '(d, err) <- port_Read (len rest) ;;
      let n := len d in
      let buf := store buf i d in
      match err with
      | Some e =>
          if is_EOF e then
            chunk <- slice buf i (i + n) ;;
            log_Printf "[INFO] read(): Read EOF data:[% x] len:%v"
                       [ABytes chunk; AInt n] ;;;
            ret (buf, i, None)
          else
            log_Printf "[ERROR] read(): Read error:%s" [AErr e] ;;;
            ret (buf, 0, Some e)
      | None =>
          chunk <- slice buf i (i + n) ;;
          log_Printf "[INFO] read(): Read buffer:[% x] len:%v"
                     [ABytes chunk; AInt n] ;;;
          read_loop fuel' buf (i + n)
      end
  end.

(** [service.read(buf)]: the buffer as the reads left it, the count and
    the error. *)
Definition read (buf : list Z) : M (list Z * Z * option error) :=
  fun w => read_loop (S (length (rx w))) buf 0 w.

(** [exchange], up to the log line "Read response data": write the frame,
    read the acknowledge, read the reply.  Gives the reply buffer and the
    count of its bytes, or the error [exchange] returns. *)
Definition exchange_handshake (data : list Z) : M (list Z * Z * option error) :=
  let buf := repeat 0 (Z.to_nat CRT571_BUFFER_MAX_LENGTH) in
  log_Printf "[INFO] exchange(): Write data:[% x] len: %v"
             [ABytes data; AInt (len data)] ;;;
  '(n, err) <- port_Write data ;;
  match err with
  | Some e =>
      log_Printf "[ERROR] exchange(): Write error:%s" [AErr e] ;;;
      ret ([], 0, Some e)
  | None =>
      log_Printf "[INFO] exchange(): Wrote len: %v" [AInt n] ;;;
      '(buf, n, err) <- read buf ;;
      match err with
      | Some e =>
          log_Printf "[ERROR] exchange(): Read ACK  error:%s" [AErr e] ;;;
          ret ([], 0, Some e)
      | None =>
          got <- slice buf 0 n ;;
          log_Printf "[INFO] exchange(): Read ACK data:[% x]" [ABytes got] ;;;
          b0 <- index buf 0 ;;
          if negb (b0 =? CRT571_ACK) then
            log_Printf "[ERROR] exchange(): ACK is absent" [] ;;;
            ret ([], 0, Some (errors_New "ACK is absent"))
          else
            '(buf, n, err) <-
              (if n >? 1 then
                 buf <- slice buf 1 (len buf) ;;
                 ret (buf, n - 1, None)
               else read buf) ;;
            match err with
            | Some e =>
                log_Printf "[ERROR] exchange(): Read response error:%s" [AErr e] ;;;
                ret ([], 0, Some e)
            | None =>
                got <- slice buf 0 n ;;
                log_Printf "[INFO] exchange(): Read response data:[% x] len:%v"
                           [ABytes got; AInt n] ;;;
                ret (buf, n, None)
            end
      end
  end.

(** [exchange]: the handshake, then the checksum of the reply is checked
    and logged, the acknowledge is written and the buffer returned.  A nil
    slice is the empty list. *)
Definition exchange (data : list Z) : M (list Z * option error) :=
  '(buf, n, err) <- exchange_handshake data ;;
  match err with
  | Some e => ret ([], Some e)
  | None =>
      bcc <- index buf (n - 1) ;;
      body <- slice buf 0 (n - 1) ;;
      ok <- bccCheck bcc body ;;
      (if negb ok then log_Printf "[ERROR] exchange(): BCC response check fail!" []
       else log_Printf "[INFO] exchange(): BCC response check success" []) ;;;
      '(n, err) <- port_Write [CRT571_ACK] ;;
      match err with
      | Some e =>
          log_Printf "[ERROR] exchange(): Write ACK error:%s" [AErr e] ;;;
          ret ([], Some e)
      | None =>
          log_Printf "[INFO] exchange(): Wrote ACK len: %v" [AInt n] ;;;
          ret (buf, None)
      end
  end.

(* ------------------------------------------------------------------ *)
(** ** Request frames and reply decoding *)

(** [binary.BigEndian.PutUint16(b, v)] on a fresh 2-byte slice:
    [b[0] = byte(v >> 8); b[1] = byte(v)]. *)
Definition PutUint16 (v : Z) : list Z :=
  [to_byte (Z.shiftr v 8); to_byte v].

(** [binary.BigEndian.Uint16(b)]: [uint16(b[1]) | uint16(b[0])<<8]. *)
Definition Uint16 (b : list Z) : Z :=
  Z.lor (nth 1 b 0) (to_uint16 (Z.shiftl (nth 0 b 0) 8)).

(** The bytes [request] collects in its [bytes.Buffer] before the
    exchange. *)
Definition request_frame (service : CRT571Service) (cm pm : Z) (data : list Z)
  : list Z :=
  let datalenb := PutUint16 (to_uint16 (len data + 3)) in
  let b := [CRT571_STX]            (* STX *)
           ++ [address service]    (* ADDR *)
           ++ datalenb             (* LEN *)
           ++ [CRT571_CMT]         (* CMT *)
           ++ [cm]                 (* CM *)
           ++ [pm]                 (* PM *)
           ++ data                 (* DATA *)
           ++ [CRT571_ETX] in      (* ETX *)
  let bcc := bccCalc b in
  b ++ [bcc].

(** What [request] does with the buffer [exchange] returned. *)
Definition request_decode (buf : list Z)
  : M (option CRT571Response * option error) :=
  lenb <- slice buf 2 4 ;;
  let datalen := Uint16 lenb in
  ty <- index buf 4 ;;
  if ty =? CRT571_PMT then
    (* Positve response *)
    cs <- slice buf 7 10 ;;
    st0 <- index buf 7 ;;
    st1 <- index buf 8 ;;
    st2 <- index buf 9 ;;
    d <- slice buf 10 (10 + datalen - 6) ;;
    let response :=
      {| Type_ := ty; CardStatus := cs;
         ST0Message := lookup_byte "" (lookup_string [] CRT571CardStatus "ST0") st0;
         ST1Message := lookup_byte "" (lookup_string [] CRT571CardStatus "ST1") st1;
         ST2Message := lookup_byte "" (lookup_string [] CRT571CardStatus "ST2") st2;
         ErrorCode := []; ErrorMessage := ""; DataLen := datalen; Data := d |} in
    log_Printf "[INFO] request(): Get positive response. Card status:[% x]=[%s;%s;%s] data:[% x]=[%[5]s]"
               [ABytes (CardStatus response); AStr (ST0Message response);
                AStr (ST1Message response); AStr (ST2Message response);
                ABytes (Data response)] ;;;
    ret (Some response, None)
  else if (ty =? CRT571_EMT) || (ty =? CRT571_EMT2) then
    (* Failed response *)
    d <- slice buf 9 (9 + datalen - 5) ;;
    ec <- slice buf 6 8 ;;
    key <- slice buf 6 8 ;;
    let response :=
      {| Type_ := ty; CardStatus := []; ST0Message := ""; ST1Message := "";
         ST2Message := ""; ErrorCode := ec;
         ErrorMessage := lookup_string "" CRT571Errors (string_of_bytes key);
         DataLen := datalen; Data := d |} in
    log_Printf "[ERROR] request(): Get negative response. Card status:[% x] data:[% x]=[%[2]s]"
               [ABytes (ErrorCode response); ABytes (Data response)] ;;;
    ret (Some response, Some (errors_New (ErrorMessage response)))
  else
    let response :=
      {| Type_ := ty; CardStatus := []; ST0Message := ""; ST1Message := "";
         ST2Message := ""; ErrorCode := []; ErrorMessage := "";
         DataLen := datalen; Data := [] |} in
    ret (Some response,
         Some (errors_New ("[ERROR] Unknow data response status [" ++ fmt_x ty ++ "]")%string)).

(** [request]: nil pointers are [None]. *)
Definition request (service : CRT571Service) (cm pm : Z) (data : list Z)
  : M (option CRT571Response * option error) :=
  log_Printf "[INFO] request(): Call with CM:%x, PM:%x, Data:[%x]"
             [AByte cm; AByte pm; ABytes data] ;;;
  let b := request_frame service cm pm data in
  log_Printf "[INFO] request(): buffer:[% x]" [ABytes b] ;;;
  if len b >? CRT571_BUFFER_MAX_LENGTH then
    ret (None, Some (errors_New "[ERROR] Exceed max packet size for CRT-571"))
  else
    '(buf, err) <- exchange b ;;
    match err with
    | Some e => ret (None, Some e)
    | None => request_decode buf
    end.

(** [Command] *)
Definition Command (service : CRT571Service) (command pm : Z)
  : M (option CRT571Response * option error) :=
  log_Printf "[INFO] Command:[%s] PM:[%x]"
             [AStr (lookup_byte "" CRT571Commands command); AByte pm] ;;;
  '(res, err) <- request service command pm [] ;;
  match err with
  | Some e =>
      log_Printf "[ERROR] Command:[%s] PM:[%x] Error: %v"
                 [AStr (lookup_byte "" CRT571Commands command);
                  AStr (lookup_byte "" (lookup_byte [] CRT571PMInfo command) pm);
                  AErr e] ;;;
      ret (res, Some e)
  | None =>
      match res with
      | None => throw nil_dereference
      | Some r =>
          log_Printf "[INFO] Command:[%s]: PM:[%x] Card status:[% x] data:[%s]"
                     [AStr (lookup_byte "" CRT571Commands command);
                      AStr (lookup_byte "" (lookup_byte [] CRT571PMInfo command) pm);
                      ABytes (CardStatus r); ABytes (Data r)] ;;;
          ret (res, None)
      end
  end.

(* ------------------------------------------------------------------ *)
(** ** The revision of [src/unnamed/part_001] *)

Module Rev1.

Definition crt571_ST0_state : list (Z * string) :=
  [ (CRT571_ST0_NO_CARD, "No Card in CRT-571");
    (CRT571_ST0_ONE_CARD_IN_GATE, "One Card in gate");
    (CRT571_ST0_ONE_CARD_ON_POSITION, "One Card on RF/IC Card Position") ].

Definition crt571_ST1_state : list (Z * string) :=
  [ (CRT571_ST1_NO_CARD_IN_STACKER, "No Card in stacker");
    (CRT571_ST1_FEW_CARD_IN_STACKER, "Few Card in stacker");
    (CRT571_ST1_ENOUGH_CARDS_IN_BOX, "Enough Cards in card box") ].

Definition crt571_ST2_state : list (Z * string) :=
  [ (CRT571_ST2_ERROR_CARD_BIN_NOT_FULL, "Error card bin not full");
    (CRT571_ST2_ERROR_CARD_BIN_FULL, "Error card bin full") ].

(** The table has the entries of [CRT571Errors], in the same order. *)
Definition crt571_errors : list (string * string) := CRT571Errors.

(** What [request] does with the buffer [exchange] returned: the status
    bytes, the data and the error. *)
Definition request_decode (buf : list Z)
  : M (list Z * list Z * option error) :=
  lenb <- slice buf 2 4 ;;
  let datalen := Uint16 lenb in
  ty <- index buf 4 ;;
  if ty =? CRT571_PMT then
    (* Positve response *)
    a1 <- slice buf 7 10 ;;
    st0 <- index buf 7 ;;
    st1 <- index buf 8 ;;
    st2 <- index buf 9 ;;
    a5 <- slice buf 10 (10 + datalen - 6) ;;
    log_Printf "[INFO] request(): Get positive response. State:[% x]=[%s;%s;%s] data:[% x]=[%[5]s]"
               [ABytes a1; AStr (lookup_byte "" crt571_ST0_state st0);
                AStr (lookup_byte "" crt571_ST1_state st1);
                AStr (lookup_byte "" crt571_ST2_state st2); ABytes a5] ;;;
    st <- slice buf 7 10 ;;
    d <- slice buf 10 (10 + datalen) ;;
    ret (st, d, None)
  else if ty =? CRT571_EMT then
    (* Failed response *)
    a1 <- slice buf 6 8 ;;
    a2 <- slice buf 9 (9 + datalen - 5) ;;
    log_Printf "[ERROR] request(): Get negative response. State: [% x] data:[% x]=[%[2]s]"
               [ABytes a1; ABytes a2] ;;;
    d <- slice buf 9 (9 + datalen) ;;
    key <- slice buf 6 8 ;;
    ret ([], d, Some (errors_New (lookup_string "" crt571_errors (string_of_bytes key))))
  else
    ret ([], [],
         Some (errors_New ("[ERROR] Unknow data response status [ " ++ fmt_x ty ++ "]")%string)).

(** [request]; the frame is built by the same lines as in the later
    revision. *)
Definition request (service : CRT571Service) (cm pm : Z) (data : list Z)
  : M (list Z * list Z * option error) :=
  log_Printf "[INFO] request(): Call with CM:%x, PM:%x, Data:[%x]"
             [AByte cm; AByte pm; ABytes data] ;;;
  let b := request_frame service cm pm data in
  log_Printf "[INFO] request(): buffer:[% x]" [ABytes b] ;;;
  if len b >? CRT571_BUFFER_MAX_LENGTH then
    ret ([], [], Some (errors_New "[ERROR] Exceed max packet size for CRT-571"))
  else
    '(buf, err) <- exchange b ;;
    match err with
    | Some e => ret ([], [], Some e)
    | None => request_decode buf
    end.

(** [Initialization] *)
Definition Initialization (service : CRT571Service) (pm : Z) : M (option error) :=
  log_Printf "[INFO] Initialization(): PM:[%x]" [AByte pm] ;;;
  request service CRT571_CM_INITIALIZE pm [] ;;;
  ret None.

(** [StatusRequest] *)
Definition StatusRequest (service : CRT571Service) (pm : Z) : M (option error) :=
  log_Printf "[INFO] StatusRequest(): PM:[%x]" [AByte pm] ;;;
  request service CRT571_CM_STATUS_REQUEST pm [] ;;;
  ret None.

End Rev1.

(* ------------------------------------------------------------------ *)
(** ** The revision of [src/crt571.go] *)

Module Rev0.

(** [bccCalculate] *)
Definition bccCalculate (data : list Z) : Z := 0x99.

(** [Exchange] *)
Definition Exchange (data : list Z) : M (list Z * option error) :=
  let buf := repeat 0 (Z.to_nat CRT571_BUFFER_MAX_LENGTH) in
  '(n, err) <- port_Write data ;;
  match err with
  | Some e => ret ([], Some e)
  | None =>
      '(d, err) <- port_Read (len buf) ;;
      let n := len d in
      let buf := store buf 0 d in
      match err with
      | Some e => ret ([], Some e)
      | None =>
          if n <? 1 then ret ([], Some (errors_New "Read buffer is empty"))
          else ret (buf, None)
      end
  end.

(** The bytes [MakeRequest] collects before the exchange. *)
Definition MakeRequest_frame (service : CRT571Service) (cm pm : Z) (data : list Z)
  : list Z :=
  let datalen := PutUint16 (to_uint16 (len data)) in
  let b := [CRT571_STX]            (* STX *)
           ++ [address service]    (* ADDR *)
           ++ datalen              (* LEN *)
           ++ [CRT571_CMT]         (* CMT *)
           ++ [cm]                 (* CM *)
           ++ [pm]                 (* PM *)
           ++ data                 (* DATA *)
           ++ [CRT571_ETX]         (* ETX *)
           ++ [CRT571_STX] in      (* STX *)
  let bcc := bccCalculate b in
  b ++ [bcc].

(** [MakeRequest] *)
Definition MakeRequest (service : CRT571Service) (cm pm : Z) (data : list Z)
  : M (list Z * option error) :=
  let b := MakeRequest_frame service cm pm data in
  if len b >? CRT571_BUFFER_MAX_LENGTH then
    ret ([], Some (errors_New "Exceed max packet size for CRT-571"))
  else
    '(buf, err) <- Exchange b ;;
    match err with
    | Some e => ret ([], Some e)
    | None =>
        ty <- index buf 4 ;;
        if ty =? CRT571_PMT then
          whole <- slice buf 0 (len buf) ;;
          ret (whole, None)
        else if ty =? CRT571_EMT then
          ret ([], Some (errors_New "Failed response"))
        else ret ([], None)
    end.

(** [Initialization] *)
Definition Initialization (service : CRT571Service) (pm : Z) : M (option error) :=
  MakeRequest service CRT571_CM_INITIALIZE pm [] ;;;
  ret None.

End Rev0.

(* ------------------------------------------------------------------ *)
(** ** Sample devices *)

Definition sample_config : CRT571Config :=
  {| BaudRate := 9600; Path := "/dev/ttyS0"; Address := 0; ReadTimeout := 500 |}.

Definition sample_service : CRT571Service := InitCRT571Service sample_config.

(** The device acknowledges and sends [reply] in the same chunk, then the
    line is silent. *)
Definition device_replies (reply : list Z) : World :=
  mkWorld [(CRT571_ACK :: reply, None); ([], Some io_EOF)] [] [] [].

(** The device acknowledges, the line falls silent, then [reply] comes. *)
Definition device_replies_apart (reply : list Z) : World :=
  mkWorld [([CRT571_ACK], None); ([], Some io_EOF);
           (reply, None); ([], Some io_EOF)] [] [] [].

(** The first write to the port fails. *)
Definition port_write_fails : World :=
  mkWorld [] [Some (port_error "input/output error")] [] [].

(** A positive status reply with a right and with a wrong checksum. *)
Definition status_reply_good : list Z :=
  [0xf2; 0x00; 0x00; 0x06; 0x50; 0x31; 0x30; 0x32; 0x32; 0x30; 0x03; 0x96].
Definition status_reply_bad : list Z :=
  [0xf2; 0x00; 0x00; 0x06; 0x50; 0x31; 0x30; 0x32; 0x32; 0x30; 0x03; 0x00].

(** The error [request] gives for a frame above the buffer size. *)
Definition size_error : error :=
  errors_New "[ERROR] Exceed max packet size for CRT-571".

(* ------------------------------------------------------------------ *)
(** ** Vocabulary of the properties *)

(** The world after one more log line. *)
Definition logged (w : World) (e : logentry) : World :=
  mkWorld (rx w) (wr w) (sent w) (logs w ++ [e]).

(** [extends w w']: the port was written to between [w] and [w'], and
    nothing that was written before is lost. *)
Definition extends (w w' : World) : Prop := exists l, sent w' = sent w ++ l.

(** Whatever [m] does, it only adds to what was sent. *)
Definition sends_only {A} (m : M A) : Prop :=
  forall w, extends w (world_of (m w)).

(** Whatever [m] does, the first bytes it writes to the port are [data]. *)
Definition sends_first {A} (data : list Z) (m : M A) : Prop :=
  forall w, exists rest, sent (world_of (m w)) = sent w ++ data :: rest.

(** Every value [m] returns satisfies [P]. *)
Definition returns {A} (m : M A) (P : A -> Prop) : Prop :=
  forall w a w', m w = Ret a w' -> P a.

(* ------------------------------------------------------------------ *)
(** ** Printing a response *)

(** The method [String] of [*CRT571Response]; the verb [%s] prints a byte
    slice as the string of its bytes. *)
Definition CRT571Response_String (response : CRT571Response) : string :=
  if Type_ response =? CRT571_PMT then
    (* Positve response *)
    ("CRT-571 positive response: card status:['" ++ ST0Message response
       ++ "','" ++ ST1Message response ++ "','" ++ ST2Message response
       ++ "'], data:[" ++ string_of_bytes (Data response) ++ "]")%string
  else if Type_ response =? CRT571_EMT then
    (* Failed response *)
    ("CRT-571 error response: " ++ ErrorMessage response
       ++ "(" ++ string_of_bytes (ErrorCode response)
       ++ "), data:[" ++ string_of_bytes (Data response) ++ "]")%string
  else "Unexpected response type".

(* ------------------------------------------------------------------ *)
(** ** Further vocabulary *)

(** The port accepts every write that is still to come. *)
Definition writes_succeed (w : World) : Prop :=
  Forall (fun r : option error => r = None) (wr w).

(** [m] leaves the port as it found it: it reads nothing and writes
    nothing (it may log). *)
Definition keeps_port {A} (m : M A) : Prop :=
  forall w, rx (world_of (m w)) = rx w /\ wr (world_of (m w)) = wr w /\
            sent (world_of (m w)) = sent w.

(** [m] writes nothing to the port. *)
Definition sends_nothing {A} (m : M A) : Prop :=
  forall w, sent (world_of (m w)) = sent w.

(** [m] writes nothing to the port, or [l] and nothing else. *)
Definition sends_at_most {A} (l : list (list Z)) (m : M A) : Prop :=
  forall w, sent (world_of (m w)) = sent w \/ sent (world_of (m w)) = sent w ++ l.

(** The script of a port that delivers the chunks [chunks], one per read,
    then reports the end of the stream, then goes on with [rest]. *)
Definition delivers (chunks : list (list Z)) (rest : list readevent) : list readevent :=
  map (fun c => (c, None)) chunks ++ ([], Some io_EOF) :: rest.

(* ================================================================== *)
(** * Properties *)

(* ------------------------------------------------------------------ *)
(** ** Checksum *)

Section Checksum.

Lemma skipn_nth_cons (a : list Z) (i : nat) :
  (i < length a)%nat -> skipn i a = nth i a 0 :: skipn (S i) a.
Proof.
  revert i. induction a as [|x a IH]; intros i Hi; simpl in Hi.
  - lia.
  - destruct i as [|i]; [reflexivity|].
    simpl. apply IH. lia.
Qed.

Lemma bccCalc_loop_fold (a : list Z) (steps i : nat) (bcc : Z) :
  (steps + i = length a)%nat ->
  bccCalc_loop a steps i bcc = fold_left Z.lxor (skipn i a) bcc.
Proof.
  revert i bcc. induction steps as [|steps IH]; intros i bcc Hlen; simpl.
  - rewrite skipn_all2 by lia. reflexivity.
  - rewrite (skipn_nth_cons a i) by lia. simpl.
    apply IH. lia.
Qed.

Lemma bccCalc_running_xor (a : list Z) : bccCalc a = running_xor a.
Proof.
  unfold bccCalc, running_xor.
  rewrite bccCalc_loop_fold by lia. reflexivity.
Qed.

Lemma running_xor_snoc (bs : list Z) (x : Z) :
  running_xor (bs ++ [x]) = Z.lxor (running_xor bs) x.
Proof. unfold running_xor. rewrite fold_left_app. reflexivity. Qed.

Lemma fold_xor_byte (bs : list Z) (acc : Z) :
  is_byte acc -> Forall is_byte bs -> is_byte (fold_left Z.lxor bs acc).
Proof.
  revert acc. induction bs as [|b bs IH]; intros acc Hacc Hbs; simpl.
  - exact Hacc.
  - inversion Hbs as [|? ? Hb Hbs']; subst.
    apply IH; [|assumption].
    unfold is_byte in *.
    destruct (Z.eq_dec (Z.lxor acc b) 0) as [->|Hnz]; [lia|].
    split; [apply Z.lxor_nonneg; lia|].
    assert (Hl : Z.log2 (Z.lxor acc b) < 8).
    { eapply Z.le_lt_trans; [apply Z.log2_lxor; lia|].
      apply Z.max_lub_lt.
      - destruct (Z.eq_dec acc 0) as [->|]; [simpl; lia|].
        apply Z.log2_lt_pow2; lia.
      - destruct (Z.eq_dec b 0) as [->|]; [simpl; lia|].
        apply Z.log2_lt_pow2; lia. }
    apply Z.log2_lt_pow2 in Hl; [simpl in Hl; lia|].
    assert (0 <= Z.lxor acc b) by (apply Z.lxor_nonneg; lia). lia.
Qed.

(** The checksum of bytes is a byte. *)
Lemma bccCalc_byte (a : list Z) : Forall is_byte a -> is_byte (bccCalc a).
Proof.
  intros Ha. rewrite bccCalc_running_xor. unfold running_xor.
  apply fold_xor_byte; [unfold is_byte; lia|assumption].
Qed.

End Checksum.

(** C10.  For every byte sequence [B], the checksum of [B] followed by its
    own checksum is zero: [bccCalc (B ++ [bccCalc B]) = 0]. *)
Theorem bccCalc_append_own_checksum (B : list Z) :
  bccCalc (B ++ [bccCalc B]) = 0.
Proof.
  rewrite !bccCalc_running_xor, running_xor_snoc.
  apply Z.lxor_nilpotent.
Qed.

(* ------------------------------------------------------------------ *)
(** ** The request frame *)

Section Frame.

Variables (service : CRT571Service) (cm pm : Z) (data : list Z).

(** The bytes the length field counts: command marker, command,
    parameter and payload. *)
Let text : list Z := [CRT571_CMT; cm; pm] ++ data.

Lemma request_frame_layout :
  request_frame service cm pm data =
  [CRT571_STX; address service] ++ PutUint16 (to_uint16 (len data + 3))
    ++ text ++ [CRT571_ETX]
    ++ [running_xor ([CRT571_STX; address service]
                       ++ PutUint16 (to_uint16 (len data + 3))
                       ++ text ++ [CRT571_ETX])].
Proof.
  unfold request_frame, text. rewrite bccCalc_running_xor.
  simpl. rewrite <- !app_assoc. reflexivity.
Qed.

Lemma request_frame_len : len (request_frame service cm pm data) = len data + 9.
Proof.
  unfold request_frame, len. rewrite !length_app. simpl. lia.
Qed.

Lemma request_frame_guard :
  (len (request_frame service cm pm data) >? CRT571_BUFFER_MAX_LENGTH)
  = (len data >? 1015).
Proof.
  rewrite request_frame_len. unfold CRT571_BUFFER_MAX_LENGTH.
  destruct (Z.gtb_spec (len data + 9) 1024), (Z.gtb_spec (len data) 1015);
    try reflexivity; lia.
Qed.

End Frame.

Lemma Uint16_PutUint16 (v : Z) : 0 <= v < 65536 -> Uint16 (PutUint16 v) = v.
Proof.
  intros Hv. unfold Uint16, PutUint16, to_byte, to_uint16. cbn [nth].
  change 256 with (2 ^ 8). change 65536 with (2 ^ 16).
  apply Z.bits_inj'. intros n Hn.
  rewrite Z.lor_spec.
  destruct (Z.ltb_spec n 8) as [Hlo|Hhi].
  - rewrite Z.mod_pow2_bits_low by lia.
    rewrite Z.mod_pow2_bits_low by lia.
    rewrite Z.shiftl_spec_low by lia.
    apply orb_false_r.
  - rewrite (Z.mod_pow2_bits_high v 8 n) by lia. rewrite orb_false_l.
    destruct (Z.ltb_spec n 16) as [Hmid|Htop].
    + rewrite Z.mod_pow2_bits_low by lia.
      rewrite Z.shiftl_spec by lia.
      rewrite Z.mod_pow2_bits_low by lia.
      rewrite Z.shiftr_spec by lia.
      f_equal. lia.
    + rewrite Z.mod_pow2_bits_high by lia.
      rewrite <- (Z.mod_small v (2 ^ 16)) by (simpl; lia).
      rewrite Z.mod_pow2_bits_high by lia. reflexivity.
Qed.

Lemma request_frame_length_bytes
  (service : CRT571Service) (cm pm : Z) (data : list Z) :
  sub (request_frame service cm pm data) 2 4 = PutUint16 (to_uint16 (len data + 3)).
Proof. reflexivity. Qed.

(** C2 (amended).  For every payload whose frame passes the size check of
    [request] (every frame that is handed to the exchange), the two
    big-endian length bytes at [2:4] hold [len(payload) + 3]; that is the
    count of the bytes from the command marker through the last payload
    byte: the end marker follows them and is not counted. *)
Theorem request_frame_length_field
  (service : CRT571Service) (cm pm : Z) (data : list Z) :
  (len (request_frame service cm pm data) >? CRT571_BUFFER_MAX_LENGTH) = false ->
  Uint16 (sub (request_frame service cm pm data) 2 4) = len data + 3 /\
  exists lenb text bcc,
    request_frame service cm pm data
      = [CRT571_STX; address service] ++ lenb ++ text ++ [CRT571_ETX; bcc] /\
    length lenb = 2%nat /\
    text = [CRT571_CMT; cm; pm] ++ data /\
    len text = len data + 3.
Proof.
  intros Hguard. rewrite request_frame_guard in Hguard.
  assert (Hlen : 0 <= len data <= 1015).
  { unfold len in *. destruct (Z.gtb_spec (Z.of_nat (length data)) 1015); [discriminate|lia]. }
  split.
  - rewrite request_frame_length_bytes.
    unfold to_uint16. rewrite Z.mod_small by lia.
    apply Uint16_PutUint16. lia.
  - eexists _, ([CRT571_CMT; cm; pm] ++ data), _.
    split; [apply request_frame_layout|].
    split; [reflexivity|]. split; [reflexivity|].
    unfold len. rewrite !length_app. cbn [length]. lia.
Qed.

(* ------------------------------------------------------------------ *)
(** ** Reasoning about the monad *)

Section Monad.

Context {A B : Type}.

Lemma bind_Ret (m : M A) (k : A -> M B) (w w' : World) (a : A) :
  m w = Ret a w' -> bind m k w = k a w'.
Proof. unfold bind. intros ->. reflexivity. Qed.

Lemma bind_Panic (m : M A) (k : A -> M B) (w w' : World) (p : panic) :
  m w = Panic p w' -> bind m k w = Panic p w'.
Proof. unfold bind. intros ->. reflexivity. Qed.

Lemma bind_inv_Ret (m : M A) (k : A -> M B) (w w2 : World) (b : B) :
  bind m k w = Ret b w2 -> exists a w1, m w = Ret a w1 /\ k a w1 = Ret b w2.
Proof.
  unfold bind. destruct (m w) as [a w1| |]; try discriminate.
  intros H. exists a, w1. split; [reflexivity|exact H].
Qed.

End Monad.

Section Sending.

Lemma extends_refl (w : World) : extends w w.
Proof. exists []. symmetry. apply app_nil_r. Qed.

Lemma extends_trans (w1 w2 w3 : World) :
  extends w1 w2 -> extends w2 w3 -> extends w1 w3.
Proof.
  intros [l1 H1] [l2 H2]. exists (l1 ++ l2).
  rewrite H2, H1. symmetry. apply app_assoc.
Qed.

Context {A B : Type}.

Lemma sends_only_ret (a : A) : sends_only (ret a).
Proof. intros w. apply extends_refl. Qed.

Lemma sends_only_throw (p : panic) : sends_only (@throw A p).
Proof. intros w. apply extends_refl. Qed.

Lemma sends_only_bind (m : M A) (k : A -> M B) :
  sends_only m -> (forall a, sends_only (k a)) -> sends_only (bind m k).
Proof.
  intros Hm Hk w. unfold bind.
  specialize (Hm w). destruct (m w) as [a w1|p w1|w1]; simpl in *.
  - eapply extends_trans; [exact Hm|apply Hk].
  - exact Hm.
  - exact Hm.
Qed.

Lemma sends_first_bind (data : list Z) (m : M A) (k : A -> M B) :
  sends_first data m -> (forall a, sends_only (k a)) ->
  sends_first data (bind m k).
Proof.
  intros Hm Hk w. unfold bind.
  destruct (Hm w) as [rest Hrest]. destruct (m w) as [a w1|p w1|w1]; simpl in *.
  - destruct (Hk a w1) as [l Hl]. exists (rest ++ l).
    rewrite Hl, Hrest. rewrite <- app_assoc. reflexivity.
  - exists rest. exact Hrest.
  - exists rest. exact Hrest.
Qed.

End Sending.

Lemma sends_only_log (f : string) (args : list logarg) : sends_only (log_Printf f args).
Proof. intros w. exists []. simpl. symmetry. apply app_nil_r. Qed.

Lemma sends_only_Write (data : list Z) : sends_only (port_Write data).
Proof.
  intros w. exists [data]. unfold port_Write.
  destruct (wr w) as [|[e|] wr']; reflexivity.
Qed.

Lemma sends_only_Read (capacity : Z) : sends_only (port_Read capacity).
Proof.
  intros w. unfold port_Read.
  destruct (rx w) as [|[d e] rx']; exists []; simpl; symmetry; apply app_nil_r.
Qed.

Lemma sends_only_index (s : list Z) (i : Z) : sends_only (index s i).
Proof. unfold index. destruct (_ && _); [apply sends_only_ret|apply sends_only_throw]. Qed.

Lemma sends_only_slice (s : list Z) (lo hi : Z) : sends_only (slice s lo hi).
Proof. unfold slice. destruct (_ && _); [apply sends_only_ret|apply sends_only_throw]. Qed.

Lemma sends_first_log {A} (data : list Z) (f : string) (args : list logarg) (k : M A) :
  sends_first data k -> sends_first data (log_Printf f args ;;; k).
Proof. intros Hk w. exact (Hk _). Qed.

Lemma sends_first_Write {A} (data : list Z) (k : Z * option error -> M A) :
  (forall r, sends_only (k r)) -> sends_first data (bind (port_Write data) k).
Proof.
  intros Hk w. unfold bind, port_Write.
  destruct (wr w) as [|[e|] wr'];
    match goal with |- context [k ?r ?w1] => destruct (Hk r w1) as [l Hl] end;
    exists l; rewrite Hl; simpl; rewrite <- app_assoc; reflexivity.
Qed.

Create HintDb sends.
#[local] Hint Resolve sends_only_ret sends_only_throw sends_only_log
  sends_only_Write sends_only_Read sends_only_index sends_only_slice : sends.

(** Takes a computation apart along its binds and case distinctions. *)
Ltac sends_step :=
  match goal with
  | |- sends_only (bind _ _) => apply sends_only_bind; [|intros ?]
  | |- sends_only (match ?x with _ => _ end) => destruct x
  | |- sends_only (if ?b then _ else _) => destruct b
  | |- forall _, _ => intros ?
  | |- sends_only _ => solve [auto with sends]
  end.
Ltac sends := repeat sends_step.

Lemma sends_only_bccCheck (bcc : Z) (data : list Z) : sends_only (bccCheck bcc data).
Proof. unfold bccCheck. sends. Qed.

Lemma sends_only_read_loop (fuel : nat) :
  forall buf i, sends_only (read_loop fuel buf i).
Proof.
  induction fuel as [|fuel IH]; intros buf i; simpl.
  - intros w. apply extends_refl.
  - sends.
Qed.

Lemma sends_only_read (buf : list Z) : sends_only (read buf).
Proof. intros w. unfold read. apply sends_only_read_loop. Qed.

#[local] Hint Resolve sends_only_bccCheck sends_only_read : sends.

Lemma sends_first_exchange (data : list Z) : sends_first data (exchange data).
Proof.
  unfold exchange, exchange_handshake.
  apply sends_first_bind.
  - apply sends_first_log. apply sends_first_Write. sends.
  - sends.
Qed.

Lemma sends_only_exchange (data : list Z) : sends_only (exchange data).
Proof.
  intros w. destruct (sends_first_exchange data w) as [rest H].
  exists (data :: rest). exact H.
Qed.

Lemma sends_only_request_decode (buf : list Z) : sends_only (request_decode buf).
Proof. unfold request_decode. sends. Qed.

Section Returning.

Context {A B : Type}.

Lemma returns_ret (a : A) (P : A -> Prop) : P a -> returns (ret a) P.
Proof. intros Ha w a' w' H. inversion H; subst. exact Ha. Qed.

Lemma returns_throw (p : panic) (P : A -> Prop) : returns (throw p) P.
Proof. intros w a' w' H. discriminate. Qed.

Lemma returns_bind (m : M A) (k : A -> M B) (P : A -> Prop) (Q : B -> Prop) :
  returns m P -> (forall a, P a -> returns (k a) Q) -> returns (bind m k) Q.
Proof.
  intros Hm Hk w b w2 H.
  apply bind_inv_Ret in H. destruct H as (a & w1 & H1 & H2).
  exact (Hk a (Hm _ _ _ H1) _ _ _ H2).
Qed.

Lemma returns_bind_any (m : M A) (k : A -> M B) (Q : B -> Prop) :
  (forall a, returns (k a) Q) -> returns (bind m k) Q.
Proof.
  intros Hk. apply (returns_bind m k (fun _ => True)).
  - intros w a w' _. exact I.
  - intros a _. apply Hk.
Qed.

End Returning.

Lemma returns_index (s : list Z) (i : Z) (P : Z -> Prop) :
  (0 <= i < len s -> P (nth (Z.to_nat i) s 0)) -> returns (index s i) P.
Proof.
  intros HP. unfold index.
  destruct (Z.leb_spec 0 i), (Z.ltb_spec i (len s)); simpl;
    try apply returns_throw.
  apply returns_ret. apply HP. lia.
Qed.

Lemma returns_slice (s : list Z) (lo hi : Z) (P : list Z -> Prop) :
  (0 <= lo /\ lo <= hi /\ hi <= len s -> P (sub s lo hi)) ->
  returns (slice s lo hi) P.
Proof.
  intros HP. unfold slice.
  destruct (Z.leb_spec 0 lo), (Z.leb_spec lo hi), (Z.leb_spec hi (len s)); simpl;
    try apply returns_throw.
  apply returns_ret. apply HP. lia.
Qed.

Lemma returns_Read (capacity : Z) :
  0 <= capacity ->
  returns (port_Read capacity) (fun r => 0 <= len (fst r) <= capacity).
Proof.
  intros Hc w r w' H. unfold port_Read in H.
  destruct (rx w) as [|[d e] rx']; [discriminate|].
  inversion H; subst. simpl. unfold len.
  rewrite length_firstn. lia.
Qed.

Lemma len_sub (s : list Z) (lo hi : Z) :
  0 <= lo -> lo <= hi -> hi <= len s -> len (sub s lo hi) = hi - lo.
Proof.
  intros H1 H2 H3. unfold sub, len in *.
  rewrite length_firstn, length_skipn. lia.
Qed.

Lemma len_store (buf : list Z) (i : Z) (d : list Z) :
  0 <= i -> i + len d <= len buf -> len (store buf i d) = len buf.
Proof.
  intros H1 H2. unfold store, len in *.
  rewrite !length_app, length_firstn, length_skipn. lia.
Qed.

Lemma len_nonneg (s : list Z) : 0 <= len s.
Proof. unfold len. lia. Qed.

(** [read] keeps the size of the buffer and counts at most that many
    bytes. *)
Lemma returns_read_loop (fuel : nat) :
  forall buf i, 0 <= i <= len buf ->
    returns (read_loop fuel buf i)
            (fun r => let '(buf', n, _) := r in
                      len buf' = len buf /\ 0 <= n <= len buf).
Proof.
  induction fuel as [|fuel IH]; intros buf i Hi; simpl.
  - intros w a w' H. discriminate.
  - apply (returns_bind _ _ (fun rest => len rest = len buf - i)).
    { apply returns_slice. intros _. apply len_sub; lia. }
    intros rest Hrest.
    apply (returns_bind _ _ (fun r => 0 <= len (fst r) <= len rest)).
    { apply returns_Read. lia. }
    intros [d err] Hd. simpl in Hd.
    assert (Hs : len (store buf i d) = len buf) by (apply len_store; lia).
    destruct err as [e|].
    + destruct (is_EOF e).
      * apply returns_bind_any. intros chunk.
        apply returns_bind_any. intros _.
        apply returns_ret. split; [exact Hs|lia].
      * apply returns_bind_any. intros _.
        apply returns_ret. split; [exact Hs|lia].
    + apply returns_bind_any. intros chunk.
      apply returns_bind_any. intros _.
      intros w [[buf' n] err] w' H.
      assert (Hrec := IH (store buf i d) (i + len d) ltac:(lia) w _ w' H).
      simpl in Hrec. rewrite Hs in Hrec. exact Hrec.
Qed.

Lemma returns_read (buf : list Z) :
  returns (read buf)
          (fun r => let '(buf', n, _) := r in
                    len buf' = len buf /\ 0 <= n <= len buf).
Proof.
  intros w a w' H. unfold read in H.
  eapply (returns_read_loop _ buf 0); [|exact H].
  pose proof (len_nonneg buf). lia.
Qed.

Lemma len_fresh_buffer :
  len (repeat 0 (Z.to_nat CRT571_BUFFER_MAX_LENGTH)) = 1024.
Proof. unfold len. rewrite repeat_length. reflexivity. Qed.

(** The reply buffer the handshake gives is the whole 1024-byte buffer, or
    that buffer without its first byte when the reply came with the
    acknowledge; the count of reply bytes is within it. *)
Lemma returns_exchange_handshake (data : list Z) :
  returns (exchange_handshake data)
          (fun r => let '(buf, n, err) := r in
                    err = None -> 1023 <= len buf <= 1024 /\ 0 <= n <= len buf).
Proof.
  unfold exchange_handshake.
  apply returns_bind_any. intros _.
  apply returns_bind_any. intros [n0 err0].
  destruct err0 as [e|].
  { apply returns_bind_any. intros _. apply returns_ret. discriminate. }
  apply returns_bind_any. intros _.
  eapply returns_bind; [apply returns_read|].
  intros [[buf n] err] [Hlen Hn]. rewrite len_fresh_buffer in Hlen, Hn.
  destruct err as [e|].
  { apply returns_bind_any. intros _. apply returns_ret. discriminate. }
  apply returns_bind_any. intros got.
  apply returns_bind_any. intros _.
  apply returns_bind_any. intros b0.
  destruct (negb (b0 =? CRT571_ACK)).
  { apply returns_bind_any. intros _. apply returns_ret. discriminate. }
  apply (returns_bind _ _ (fun r => let '(buf', n', _) := r in
                              1023 <= len buf' <= 1024 /\ 0 <= n' <= len buf')).
  - destruct (Z.gtb_spec n 1) as [Hgt|Hle].
    + eapply returns_bind.
      * apply (returns_slice _ _ _ (fun s => len s = 1023)).
        intros _. rewrite len_sub; lia.
      * intros buf' Hbuf'. simpl in Hbuf'. apply returns_ret. simpl. lia.
    + intros w r w' H. apply returns_read in H.
      destruct r as [[buf' n'] err']. lia.
  - intros [[buf' n'] err'] Hinv.
    destruct err' as [e|].
    + apply returns_bind_any. intros _. apply returns_ret. discriminate.
    + apply returns_bind_any. intros got'.
      apply returns_bind_any. intros _.
      apply returns_ret. intros _. exact Hinv.
Qed.

Lemma returns_exchange (data : list Z) :
  returns (exchange data)
          (fun r => let '(buf, err) := r in err = None -> 1023 <= len buf <= 1024).
Proof.
  unfold exchange.
  eapply returns_bind; [apply returns_exchange_handshake|].
  intros [[buf n] err] Hinv. destruct err as [e|].
  { apply returns_ret. discriminate. }
  specialize (Hinv eq_refl).
  apply returns_bind_any. intros bcc.
  apply returns_bind_any. intros body.
  apply returns_bind_any. intros ok.
  apply returns_bind_any. intros _.
  apply returns_bind_any. intros [n1 err1].
  destruct err1 as [e|].
  - apply returns_bind_any. intros _. apply returns_ret. discriminate.
  - apply returns_bind_any. intros _. apply returns_ret. intros _. lia.
Qed.

(* ------------------------------------------------------------------ *)
(** ** What [request] sends *)

Section RequestSends.

Variables (service : CRT571Service) (cm pm : Z) (data : list Z).

(** Above 1015 payload bytes [request] returns the size error and the
    port is not touched. *)
Lemma request_rejects (w : World) :
  1015 < len data ->
  request service cm pm data w =
  Ret (None, Some size_error)
      (mkWorld (rx w) (wr w) (sent w)
         ((logs w ++ [Log "[INFO] request(): Call with CM:%x, PM:%x, Data:[%x]"
                          [AByte cm; AByte pm; ABytes data]])
            ++ [Log "[INFO] request(): buffer:[% x]"
                    [ABytes (request_frame service cm pm data)]])).
Proof.
  intros Hlen. unfold request, bind at 1 2. simpl.
  rewrite request_frame_guard.
  destruct (Z.gtb_spec (len data) 1015); [reflexivity|lia].
Qed.

(** Up to 1015 payload bytes the frame is the first thing written. *)
Lemma sends_first_request :
  len data <= 1015 ->
  sends_first (request_frame service cm pm data) (request service cm pm data).
Proof.
  intros Hlen. unfold request.
  apply sends_first_log. apply sends_first_log.
  rewrite request_frame_guard.
  destruct (Z.gtb_spec (len data) 1015); [lia|].
  apply sends_first_bind; [apply sends_first_exchange|].
  intros [buf err]. destruct err; [apply sends_only_ret|apply sends_only_request_decode].
Qed.

End RequestSends.

(** C1.  For address 0x00, command 0x31, parameter 0x30 and an empty
    payload the frame is exactly [F2 00 00 03 43 31 30 03 B0]; its ninth
    byte B0 is the exclusive-or of the eight bytes before it; and these
    nine bytes are the first thing [request] writes to the port. *)
Theorem status_request_frame_bytes (c : CRT571Config) :
  let service := {| config := c; address := 0x00 |} in
  let frame := [0xf2; 0x00; 0x00; 0x03; 0x43; 0x31; 0x30; 0x03; 0xb0] in
  request_frame service 0x31 0x30 [] = frame /\
  nth 8 frame 0 = running_xor (firstn 8 frame) /\
  forall w, exists rest,
      sent (world_of (request service 0x31 0x30 [] w)) = sent w ++ frame :: rest.
Proof.
  intros service frame.
  assert (Hframe : request_frame service 0x31 0x30 [] = frame) by reflexivity.
  split; [exact Hframe|]. split; [reflexivity|].
  intros w. rewrite <- Hframe.
  apply sends_first_request. unfold len. simpl. lia.
Qed.

(** C3.  [bccCalc] returns the running exclusive-or of its input, taken in
    order from the first byte; and the last byte of every request frame is
    that value for the bytes from the start marker through the end
    marker. *)
Theorem checksum_is_running_xor :
  (forall a : list Z, bccCalc a = running_xor a) /\
  (forall (service : CRT571Service) (cm pm : Z) (data : list Z),
      exists body,
        body = [CRT571_STX; address service]
                 ++ PutUint16 (to_uint16 (len data + 3))
                 ++ [CRT571_CMT; cm; pm] ++ data ++ [CRT571_ETX] /\
        request_frame service cm pm data = body ++ [running_xor body]).
Proof.
  split; [exact bccCalc_running_xor|].
  intros service cm pm data. eexists. split; [reflexivity|].
  rewrite request_frame_layout. simpl. rewrite <- !app_assoc. reflexivity.
Qed.

(** C4 (amended).  The frame has [len(payload) + 9] bytes; [request]
    returns the size error, with nothing written to the port, exactly when
    [len(payload) > 1015]; and exactly when [len(payload) <= 1015] the
    frame is written to the port. *)
Theorem request_size_check
  (service : CRT571Service) (cm pm : Z) (data : list Z) (w : World) :
  len (request_frame service cm pm data) = len data + 9 /\
  ((exists w', request service cm pm data w = Ret (None, Some size_error) w' /\
               sent w' = sent w)
   <-> 1015 < len data) /\
  ((exists rest, sent (world_of (request service cm pm data w))
                 = sent w ++ request_frame service cm pm data :: rest)
   <-> len data <= 1015).
Proof.
  assert (Hno : forall (l : list (list Z)) x rest, l = l ++ x :: rest -> False).
  { intros l x rest H. apply (f_equal (@length _)) in H.
    rewrite length_app in H. simpl in H. lia. }
  split; [apply request_frame_len|]. split; split.
  - intros (w' & Hret & Hsent).
    destruct (Z.lt_ge_cases 1015 (len data)) as [Hgt|Hle]; [exact Hgt|exfalso].
    destruct (sends_first_request service cm pm data ltac:(lia) w) as [rest Hrest].
    rewrite Hret in Hrest. simpl in Hrest. rewrite Hsent in Hrest.
    exact (Hno _ _ _ Hrest).
  - intros Hgt. eexists. split; [apply request_rejects; exact Hgt|reflexivity].
  - intros [rest Hrest].
    destruct (Z.lt_ge_cases 1015 (len data)) as [Hgt|Hle]; [exfalso|lia].
    rewrite (request_rejects service cm pm data w Hgt) in Hrest. simpl in Hrest.
    exact (Hno _ _ _ Hrest).
  - intros Hle. apply sends_first_request. exact Hle.
Qed.

(** C4, counterexample.  With a payload of 1021 bytes [request] does not
    succeed: it returns the size error and writes nothing. *)
Lemma request_size_check_1021 :
  len (repeat 0 1021%nat) = 1021 /\
  exists w',
    request sample_service CRT571_CM_STATUS_REQUEST CRT571_PM_STATUS_DEVICE
            (repeat 0 1021%nat) (device_replies status_reply_good)
    = Ret (None, Some size_error) w' /\
    sent w' = [].
Proof.
  assert (Hlen : len (repeat 0 1021%nat) = 1021).
  { unfold len. rewrite repeat_length. reflexivity. }
  split; [exact Hlen|].
  eexists. split; [apply request_rejects; lia|reflexivity].
Qed.

(** C2, counterexample.  For the empty payload the length field holds 3,
    while the bytes from the command marker (index 4) through the end
    marker (index 7) are four. *)
Lemma length_field_excludes_end_marker :
  let frame := request_frame sample_service
                 CRT571_CM_STATUS_REQUEST CRT571_PM_STATUS_DEVICE [] in
  nth 4 frame 0 = CRT571_CMT /\ nth 7 frame 0 = CRT571_ETX /\
  len (sub frame 4 8) = 4 /\
  Uint16 (sub frame 2 4) = 3 /\
  Uint16 (sub frame 2 4) <> len (sub frame 4 8).
Proof. repeat split. discriminate. Qed.

Lemma request_frame_length_field_witness :
  let frame := request_frame sample_service CRT571_CM_CARD_MOVE
                 CRT571_PM_CARD_MOVE_GATE [0x01; 0x02] in
  (len frame >? CRT571_BUFFER_MAX_LENGTH) = false /\
  Uint16 (sub frame 2 4) = 5.
Proof.
  intros frame.
  assert (H : (len frame >? CRT571_BUFFER_MAX_LENGTH) = false) by reflexivity.
  split; [exact H|].
  apply (request_frame_length_field sample_service CRT571_CM_CARD_MOVE
           CRT571_PM_CARD_MOVE_GATE [0x01; 0x02] H).
Defined.

(* ------------------------------------------------------------------ *)
(** ** Decoding the reply *)

Section Steps.

Context {A : Type}.

Lemma bind_slice_ok (s : list Z) (lo hi : Z) (k : list Z -> M A) (w : World) :
  0 <= lo -> lo <= hi -> hi <= len s ->
  bind (slice s lo hi) k w = k (sub s lo hi) w.
Proof.
  intros H1 H2 H3. unfold bind, slice.
  destruct (Z.leb_spec 0 lo), (Z.leb_spec lo hi), (Z.leb_spec hi (len s));
    try lia. reflexivity.
Qed.

Lemma bind_slice_panic (s : list Z) (lo hi : Z) (k : list Z -> M A) (w : World) :
  ~ (0 <= lo /\ lo <= hi /\ hi <= len s) ->
  bind (slice s lo hi) k w = Panic (slice_bounds_out_of_range lo hi (len s)) w.
Proof.
  intros H. unfold bind, slice.
  destruct (Z.leb_spec 0 lo), (Z.leb_spec lo hi), (Z.leb_spec hi (len s));
    try reflexivity. lia.
Qed.

Lemma bind_index_ok (s : list Z) (i : Z) (k : Z -> M A) (w : World) :
  0 <= i -> i < len s ->
  bind (index s i) k w = k (nth (Z.to_nat i) s 0) w.
Proof.
  intros H1 H2. unfold bind, index.
  destruct (Z.leb_spec 0 i), (Z.ltb_spec i (len s)); try lia. reflexivity.
Qed.

Lemma bind_index_panic (s : list Z) (i : Z) (k : Z -> M A) (w : World) :
  ~ (0 <= i < len s) ->
  bind (index s i) k w = Panic (index_out_of_range i (len s)) w.
Proof.
  intros H. unfold bind, index.
  destruct (Z.leb_spec 0 i), (Z.ltb_spec i (len s)); try reflexivity. lia.
Qed.

End Steps.

Lemma lookup_string_cases {V} (zero : V) (m : list (string * V)) (k : string) :
  lookup_string zero m k = zero \/ In (lookup_string zero m k) (map snd m).
Proof.
  induction m as [|[k' v] m IH]; simpl.
  - left. reflexivity.
  - destruct (String.eqb k' k).
    + right. left. reflexivity.
    + destruct IH as [IH|IH]; [left; exact IH|right; right; exact IH].
Qed.

(** No message of the error table is the message for an unknown marker. *)
Lemma error_message_not_unknown (key : string) (ty : Z) :
  lookup_string "" CRT571Errors key
  <> ("[ERROR] Unknow data response status [" ++ fmt_x ty ++ "]")%string.
Proof.
  intros Heq.
  destruct (lookup_string_cases "" CRT571Errors key) as [H|H];
    rewrite Heq in H; simpl in H.
  - discriminate.
  - repeat (destruct H as [H|H]; [discriminate|]). exact H.
Qed.

Section Decode.

Variables (buf : list Z) (w : World).

(** The declared length and the marker, as [request] reads them. *)
Let L : Z := Uint16 (sub buf 2 4).
Let ty : Z := nth 4 buf 0.

Lemma request_decode_positive :
  ty = CRT571_PMT -> 6 <= L -> L <= len buf - 4 ->
  request_decode buf w =
  let response :=
    {| Type_ := CRT571_PMT; CardStatus := sub buf 7 10;
       ST0Message := lookup_byte "" (lookup_string [] CRT571CardStatus "ST0") (nth 7 buf 0);
       ST1Message := lookup_byte "" (lookup_string [] CRT571CardStatus "ST1") (nth 8 buf 0);
       ST2Message := lookup_byte "" (lookup_string [] CRT571CardStatus "ST2") (nth 9 buf 0);
       ErrorCode := []; ErrorMessage := ""; DataLen := L;
       Data := sub buf 10 (10 + L - 6) |} in
  Ret (Some response, None)
      (logged w (Log "[INFO] request(): Get positive response. Card status:[% x]=[%s;%s;%s] data:[% x]=[%[5]s]"
                     [ABytes (CardStatus response); AStr (ST0Message response);
                      AStr (ST1Message response); AStr (ST2Message response);
                      ABytes (Data response)])).
Proof.
  intros Hty H6 Hfit. unfold request_decode. subst L ty.
  rewrite bind_slice_ok by lia.
  rewrite bind_index_ok by lia.
  change (Z.to_nat 4) with 4%nat. rewrite Hty. rewrite Z.eqb_refl.
  rewrite bind_slice_ok by lia.
  rewrite !bind_index_ok by lia.
  rewrite bind_slice_ok by lia.
  reflexivity.
Qed.

Lemma request_decode_positive_panic :
  ty = CRT571_PMT -> 10 <= len buf -> ~ (6 <= L <= len buf - 4) ->
  request_decode buf w =
  Panic (slice_bounds_out_of_range 10 (10 + L - 6) (len buf)) w.
Proof.
  intros Hty Hlen Hbad. unfold request_decode. subst L ty.
  rewrite bind_slice_ok by lia.
  rewrite bind_index_ok by lia.
  change (Z.to_nat 4) with 4%nat. rewrite Hty. rewrite Z.eqb_refl.
  rewrite bind_slice_ok by lia.
  rewrite !bind_index_ok by lia.
  rewrite bind_slice_panic by lia.
  reflexivity.
Qed.

Lemma request_decode_negative :
  ty = CRT571_EMT \/ ty = CRT571_EMT2 -> 5 <= L -> L <= len buf - 4 ->
  request_decode buf w =
  let response :=
    {| Type_ := ty; CardStatus := []; ST0Message := ""; ST1Message := "";
       ST2Message := ""; ErrorCode := sub buf 6 8;
       ErrorMessage := lookup_string "" CRT571Errors (string_of_bytes (sub buf 6 8));
       DataLen := L; Data := sub buf 9 (9 + L - 5) |} in
  Ret (Some response, Some (errors_New (ErrorMessage response)))
      (logged w (Log "[ERROR] request(): Get negative response. Card status:[% x] data:[% x]=[%[2]s]"
                     [ABytes (ErrorCode response); ABytes (Data response)])).
Proof.
  intros Hty H5 Hfit. unfold request_decode. subst L ty.
  rewrite bind_slice_ok by lia.
  rewrite bind_index_ok by lia.
  change (Z.to_nat 4) with 4%nat.
  destruct Hty as [Hty|Hty]; rewrite Hty;
    [ change (CRT571_EMT =? CRT571_PMT) with false;
      change ((CRT571_EMT =? CRT571_EMT) || (CRT571_EMT =? CRT571_EMT2)) with true
    | change (CRT571_EMT2 =? CRT571_PMT) with false;
      change ((CRT571_EMT2 =? CRT571_EMT) || (CRT571_EMT2 =? CRT571_EMT2)) with true ];
    cbv iota.
  all: rewrite bind_slice_ok by lia.
  all: rewrite !bind_slice_ok by lia.
  all: reflexivity.
Qed.

Lemma request_decode_negative_panic :
  ty = CRT571_EMT \/ ty = CRT571_EMT2 -> 9 <= len buf -> ~ (5 <= L <= len buf - 4) ->
  request_decode buf w =
  Panic (slice_bounds_out_of_range 9 (9 + L - 5) (len buf)) w.
Proof.
  intros Hty Hlen Hbad. unfold request_decode. subst L ty.
  rewrite bind_slice_ok by lia.
  rewrite bind_index_ok by lia.
  change (Z.to_nat 4) with 4%nat.
  destruct Hty as [Hty|Hty]; rewrite Hty;
    [ change (CRT571_EMT =? CRT571_PMT) with false;
      change ((CRT571_EMT =? CRT571_EMT) || (CRT571_EMT =? CRT571_EMT2)) with true
    | change (CRT571_EMT2 =? CRT571_PMT) with false;
      change ((CRT571_EMT2 =? CRT571_EMT) || (CRT571_EMT2 =? CRT571_EMT2)) with true ];
    cbv iota.
  all: rewrite bind_slice_panic by lia.
  all: reflexivity.
Qed.

Lemma request_decode_unknown :
  5 <= len buf ->
  ty <> CRT571_PMT -> ty <> CRT571_EMT -> ty <> CRT571_EMT2 ->
  request_decode buf w =
  Ret (Some {| Type_ := ty; CardStatus := []; ST0Message := "";
               ST1Message := ""; ST2Message := ""; ErrorCode := [];
               ErrorMessage := ""; DataLen := L; Data := [] |},
       Some (errors_New
               ("[ERROR] Unknow data response status [" ++ fmt_x ty ++ "]")%string))
      w.
Proof.
  intros Hlen Hp He He2. unfold request_decode. subst L ty.
  rewrite bind_slice_ok by lia.
  rewrite bind_index_ok by lia.
  change (Z.to_nat 4) with 4%nat.
  destruct (Z.eqb_spec (nth 4 buf 0) CRT571_PMT); [contradiction|].
  destruct (Z.eqb_spec (nth 4 buf 0) CRT571_EMT); [contradiction|].
  destruct (Z.eqb_spec (nth 4 buf 0) CRT571_EMT2); [contradiction|].
  reflexivity.
Qed.

End Decode.

(** C5, counterexample.  The device acknowledges and sends five bytes
    only, [F2 00 00 00 50]: shorter than the offsets of a positive reply.
    [request] stops with the run-time panic of the slice [buf[10:4]].  With
    the five bytes [F2 00 00 06 50] it returns success, with the status
    read from the untouched part of the buffer. *)
Lemma short_reply_is_not_truncated_frame :
  (exists w',
      request sample_service CRT571_CM_STATUS_REQUEST CRT571_PM_STATUS_DEVICE []
              (device_replies [0xf2; 0x00; 0x00; 0x00; 0x50])
      = Panic (slice_bounds_out_of_range 10 4 1023) w') /\
  (exists r w',
      request sample_service CRT571_CM_STATUS_REQUEST CRT571_PM_STATUS_DEVICE []
              (device_replies [0xf2; 0x00; 0x00; 0x06; 0x50])
      = Ret (Some r, None) w' /\
      CardStatus r = [0; 0; 0] /\ Data r = []).
Proof.
  split.
  - eexists. vm_compute. reflexivity.
  - eexists _, _. split; [vm_compute; reflexivity|]. split; reflexivity.
Qed.

(** C5 (amended).  Decoding checks no length.  The buffer [exchange]
    returns always has 1023 or 1024 bytes, however few the device sent, so
    the marker, the status bytes and the error code are read within it.
    The payload is sliced by the declared length [L] alone: a positive
    reply is decoded when [6 <= L <= len(buf) - 4], a negative one when
    [5 <= L <= len(buf) - 4]; otherwise decoding stops with the run-time
    panic of that slice.  No truncated-frame result exists. *)
Theorem decode_takes_declared_length
  (data : list Z) (w : World) (buf : list Z) (w1 : World) :
  exchange data w = Ret (buf, None) w1 ->
  let L := Uint16 (sub buf 2 4) in
  1023 <= len buf <= 1024 /\
  (nth 4 buf 0 = CRT571_PMT ->
   if (6 <=? L) && (L <=? len buf - 4) then
     exists r w2, request_decode buf w1 = Ret (Some r, None) w2 /\
                  CardStatus r = sub buf 7 10 /\ Data r = sub buf 10 (10 + L - 6)
   else request_decode buf w1
        = Panic (slice_bounds_out_of_range 10 (10 + L - 6) (len buf)) w1) /\
  (nth 4 buf 0 = CRT571_EMT \/ nth 4 buf 0 = CRT571_EMT2 ->
   if (5 <=? L) && (L <=? len buf - 4) then
     exists r w2, request_decode buf w1
                  = Ret (Some r, Some (errors_New (ErrorMessage r))) w2 /\
                  ErrorCode r = sub buf 6 8 /\ Data r = sub buf 9 (9 + L - 5)
   else request_decode buf w1
        = Panic (slice_bounds_out_of_range 9 (9 + L - 5) (len buf)) w1).
Proof.
  intros Hex L.
  assert (Hlen : 1023 <= len buf <= 1024).
  { exact (returns_exchange data w (buf, None) w1 Hex eq_refl). }
  split; [exact Hlen|]. split; intros Hty.
  - destruct (Z.leb_spec 6 L), (Z.leb_spec L (len buf - 4)); simpl.
    2-4: apply request_decode_positive_panic; [exact Hty|lia|fold L; lia].
    rewrite request_decode_positive by assumption.
    eexists _, _. split; [reflexivity|]. split; reflexivity.
  - destruct (Z.leb_spec 5 L), (Z.leb_spec L (len buf - 4)); simpl.
    2-4: apply request_decode_negative_panic; [exact Hty|lia|fold L; lia].
    rewrite request_decode_negative by assumption.
    eexists _, _. split; [reflexivity|]. split; reflexivity.
Qed.

Lemma decode_takes_declared_length_witness :
  exists buf w1,
    exchange (request_frame sample_service CRT571_CM_STATUS_REQUEST
                CRT571_PM_STATUS_DEVICE [])
             (device_replies [0xf2; 0x00; 0x00; 0x00; 0x50])
    = Ret (buf, None) w1 /\
    1023 <= len buf <= 1024.
Proof.
  destruct (exchange _ (device_replies [0xf2; 0x00; 0x00; 0x00; 0x50]))
    as [[buf [e|]] w1|p w1|w1] eqn:Hex;
    try (vm_compute in Hex; discriminate).
  exists buf, w1. split; [reflexivity|].
  apply (decode_takes_declared_length _ _ buf w1 Hex).
Defined.

(** C7.  A buffer whose marker byte (index 4) is 0x45 or 0x4E is decoded
    as a negative reply: the error code is [buf[6:8]], the message is
    looked up under it, the payload is [buf[9 : 9+L-5]] and the error
    returned carries the message.  When the declared length [L] does not
    fit, it is the payload slice of this branch that panics.  In no case
    is the result the error for an unknown marker. *)
Theorem negative_markers_both_accepted (buf : list Z) (w : World) :
  nth 4 buf 0 = 0x45 \/ nth 4 buf 0 = 0x4e ->
  9 <= len buf ->
  let L := Uint16 (sub buf 2 4) in
  if (5 <=? L) && (L <=? len buf - 4) then
    exists r w',
      request_decode buf w = Ret (Some r, Some (errors_New (ErrorMessage r))) w' /\
      Type_ r = nth 4 buf 0 /\
      ErrorCode r = sub buf 6 8 /\
      ErrorMessage r = lookup_string "" CRT571Errors (string_of_bytes (sub buf 6 8)) /\
      Data r = sub buf 9 (9 + L - 5) /\
      errors_New (ErrorMessage r)
      <> errors_New ("[ERROR] Unknow data response status ["
                       ++ fmt_x (nth 4 buf 0) ++ "]")%string
  else
    request_decode buf w
    = Panic (slice_bounds_out_of_range 9 (9 + L - 5) (len buf)) w.
Proof.
  intros Hty Hlen L.
  destruct (Z.leb_spec 5 L), (Z.leb_spec L (len buf - 4)); simpl.
  2-4: apply request_decode_negative_panic; [exact Hty|exact Hlen|fold L; lia].
  rewrite request_decode_negative by assumption.
  eexists _, _. split; [reflexivity|]. simpl.
  repeat split; try reflexivity.
  intros Heq. inversion Heq as [Hmsg].
  exact (error_message_not_unknown _ _ Hmsg).
Qed.

Lemma negative_markers_both_accepted_witness :
  let buf := [0xf2; 0x00; 0x00; 0x05; 0x4e; 0x32; 0x31; 0x30; 0x39; 0x03; 0xe2] in
  (nth 4 buf 0 = 0x45 \/ nth 4 buf 0 = 0x4e) /\
  9 <= len buf /\
  exists r w',
    request_decode buf (device_replies []) = Ret (Some r, Some (errors_New "Card Jam")) w'.
Proof.
  intros buf.
  assert (H1 : nth 4 buf 0 = 0x45 \/ nth 4 buf 0 = 0x4e) by (right; reflexivity).
  assert (H2 : 9 <= len buf) by (vm_compute; discriminate).
  split; [exact H1|]. split; [exact H2|].
  destruct (negative_markers_both_accepted buf (device_replies []) H1 H2)
    as (r & w' & Hret & _ & _ & Hmsg & _).
  exists r, w'. rewrite Hret, Hmsg. reflexivity.
Defined.

(** C8.  For every buffer of at least 5 bytes whose marker byte (index 4)
    is none of 0x50, 0x45, 0x4E, decoding returns, without a panic, an
    error whose message shows the marker in hexadecimal, together with a
    response that holds the marker in its [Type] field. *)
Theorem unknown_marker_is_failure (buf : list Z) (w : World) :
  5 <= len buf ->
  nth 4 buf 0 <> 0x50 -> nth 4 buf 0 <> 0x45 -> nth 4 buf 0 <> 0x4e ->
  exists r,
    request_decode buf w =
    Ret (Some r,
         Some (errors_New ("[ERROR] Unknow data response status ["
                             ++ fmt_x (nth 4 buf 0) ++ "]")%string)) w /\
    Type_ r = nth 4 buf 0 /\ CardStatus r = [] /\ Data r = [].
Proof.
  intros Hlen Hp He He2.
  rewrite request_decode_unknown by assumption.
  eexists. split; [reflexivity|]. repeat split.
Qed.

Lemma unknown_marker_is_failure_witness :
  let buf := [0xf2; 0x00; 0x00; 0x03; 0x77] in
  5 <= len buf /\
  exists r,
    request_decode buf (device_replies []) =
    Ret (Some r, Some (errors_New "[ERROR] Unknow data response status [77]"))
        (device_replies []) /\
    Type_ r = 0x77.
Proof.
  intros buf. split; [vm_compute; discriminate|].
  destruct (unknown_marker_is_failure buf (device_replies []))
    as (r & Hret & Hty & _); try (vm_compute; discriminate).
  exists r. split; [exact Hret|exact Hty].
Defined.

(* ------------------------------------------------------------------ *)
(** ** The exchange and the checksum of the reply *)

(** C6.  Whatever reply buffer the handshake delivers, with at least one
    byte, [exchange] logs the verdict of the checksum check, writes the
    acknowledge token and returns that same buffer (or the error of this
    last write): the value returned is fixed by the buffer and the port, not
    by whether the last byte is the exclusive-or of the bytes before it;
    only the log line differs. *)
Theorem exchange_ignores_checksum
  (data : list Z) (w : World) (buf : list Z) (n : Z) (w1 : World) :
  exchange_handshake data w = Ret (buf, n, None) w1 ->
  1 <= n ->
  let bcc := nth (Z.to_nat (n - 1)) buf 0 in
  let body := sub buf 0 (n - 1) in
  let verdict :=
    if bcc =? bccCalc body
    then Log "[INFO] exchange(): BCC response check success" []
    else Log "[ERROR] exchange(): BCC response check fail!" [] in
  exists w2,
    exchange data w
    = Ret (match wr w1 with Some e :: _ => ([], Some e) | _ => (buf, None) end) w2 /\
    sent w2 = sent w1 ++ [[CRT571_ACK]] /\
    In verdict (logs w2).
Proof.
  intros Hhs Hn bcc body verdict.
  assert (Hinv : 1023 <= len buf <= 1024 /\ 0 <= n <= len buf).
  { exact (returns_exchange_handshake data w (buf, n, None) w1 Hhs eq_refl). }
  unfold exchange. rewrite (bind_Ret _ _ _ _ _ Hhs). cbv iota beta.
  rewrite bind_index_ok by lia.
  rewrite bind_slice_ok by lia.
  fold bcc body. unfold bccCheck, bind, log_Printf, port_Write, ret.
  subst verdict. cbn [wr sent logs rx].
  destruct (bcc =? bccCalc body); cbn [negb wr sent logs rx];
    destruct (wr w1) as [|[e|] wr']; cbn [wr sent logs rx];
    eexists; (split; [reflexivity|]); (split; [reflexivity|]);
    cbn [logs]; rewrite ?in_app_iff; simpl; tauto.
Qed.

Lemma exchange_ignores_checksum_witness :
  let frame := request_frame sample_service CRT571_CM_STATUS_REQUEST
                 CRT571_PM_STATUS_DEVICE [] in
  bccCalc (removelast status_reply_bad) <> last status_reply_bad 0 /\
  exists buf w2,
    exchange frame (device_replies status_reply_bad) = Ret (buf, None) w2 /\
    sub buf 0 12 = status_reply_bad /\
    sent w2 = [frame; [CRT571_ACK]] /\
    In (Log "[ERROR] exchange(): BCC response check fail!" []) (logs w2).
Proof.
  intros frame. split; [vm_compute; discriminate|].
  destruct (exchange_handshake frame (device_replies status_reply_bad))
    as [[[buf n] [e|]] w1|p w1|w1] eqn:Hhs;
    try (vm_compute in Hhs; discriminate).
  pose proof Hhs as Hval. vm_compute in Hval.
  injection Hval as Hbuf Hn Hw1.
  assert (H1 : 1 <= n) by (rewrite <- Hn; discriminate).
  destruct (exchange_ignores_checksum frame _ buf n w1 Hhs H1)
    as (w2 & Hex & Hsent & Hlog).
  exists buf, w2.
  rewrite <- Hw1 in Hex, Hsent. cbn [wr sent] in Hex, Hsent.
  split; [exact Hex|]. split; [rewrite <- Hbuf; reflexivity|].
  split; [exact Hsent|].
  rewrite <- Hn, <- Hbuf in Hlog. exact Hlog.
Defined.

(** The same status reply with a right and with a wrong last byte: both
    times the acknowledge is written and the reply is returned as it came;
    the log tells them apart. *)
Lemma exchange_right_and_wrong_checksum :
  let frame := request_frame sample_service CRT571_CM_STATUS_REQUEST
                 CRT571_PM_STATUS_DEVICE [] in
  bccCalc (removelast status_reply_good) = last status_reply_good 0 /\
  bccCalc (removelast status_reply_bad) <> last status_reply_bad 0 /\
  (exists buf w2,
      exchange frame (device_replies status_reply_good) = Ret (buf, None) w2 /\
      sub buf 0 12 = status_reply_good /\
      sent w2 = [frame; [CRT571_ACK]] /\
      last (logs w2) (Log "" []) = Log "[INFO] exchange(): Wrote ACK len: %v" [AInt 1] /\
      In (Log "[INFO] exchange(): BCC response check success" []) (logs w2)) /\
  (exists buf w2,
      exchange frame (device_replies_apart status_reply_bad) = Ret (buf, None) w2 /\
      sub buf 0 12 = status_reply_bad /\
      sent w2 = [frame; [CRT571_ACK]] /\
      last (logs w2) (Log "" []) = Log "[INFO] exchange(): Wrote ACK len: %v" [AInt 1] /\
      In (Log "[ERROR] exchange(): BCC response check fail!" []) (logs w2)).
Proof.
  intros frame. split; [reflexivity|]. split; [vm_compute; discriminate|].
  split; eexists _, _; (split; [vm_compute; reflexivity|]);
    repeat split; try reflexivity; vm_compute; tauto.
Qed.

(* ------------------------------------------------------------------ *)
(** ** The facade *)

(** [Command] hands on the error of [request], with the response that
    came with it. *)
Lemma Command_hands_on_error
  (service : CRT571Service) (command pm : Z) (w w1 : World)
  (res : option CRT571Response) (e : error) :
  request service command pm []
          (logged w (Log "[INFO] Command:[%s] PM:[%x]"
                         [AStr (lookup_byte "" CRT571Commands command); AByte pm]))
  = Ret (res, Some e) w1 ->
  exists w2, Command service command pm w = Ret (res, Some e) w2.
Proof.
  intros Hreq. unfold Command, bind at 1. cbn [log_Printf].
  fold (logged w (Log "[INFO] Command:[%s] PM:[%x]"
                      [AStr (lookup_byte "" CRT571Commands command); AByte pm])).
  rewrite (bind_Ret _ _ _ _ _ Hreq). cbv iota beta.
  eexists. reflexivity.
Qed.

(** [Command] reports success only with the response of a [request] that
    itself reported success. *)
Lemma Command_success_is_request_success
  (service : CRT571Service) (command pm : Z) (w w2 : World)
  (res : option CRT571Response) :
  Command service command pm w = Ret (res, None) w2 ->
  exists w1,
    request service command pm []
            (logged w (Log "[INFO] Command:[%s] PM:[%x]"
                           [AStr (lookup_byte "" CRT571Commands command); AByte pm]))
    = Ret (res, None) w1.
Proof.
  unfold Command, bind at 1. cbn [log_Printf].
  fold (logged w (Log "[INFO] Command:[%s] PM:[%x]"
                      [AStr (lookup_byte "" CRT571Commands command); AByte pm])).
  intros H. apply bind_inv_Ret in H.
  destruct H as ([res' err'] & w1 & Hreq & Hk).
  destruct err' as [e|].
  - unfold bind, log_Printf, ret in Hk. discriminate.
  - destruct res' as [r|]; [|discriminate].
    unfold bind, log_Printf, ret in Hk. inversion Hk; subst.
    exists w1. exact Hreq.
Qed.

(** In the revision of [part_001], [Initialization] and [StatusRequest]
    return nil whatever [request] returned. *)
Lemma rev1_facade_returns_nil (service : CRT571Service) (pm : Z) :
  returns (Rev1.Initialization service pm) (fun e => e = None) /\
  returns (Rev1.StatusRequest service pm) (fun e => e = None).
Proof.
  split; unfold Rev1.Initialization, Rev1.StatusRequest;
    apply returns_bind_any; intros _;
    apply returns_bind_any; intros _;
    apply returns_ret; reflexivity.
Qed.

(** C9, at the failing input.  The first write to the port fails:
    [request] returns the port's error, and [Initialization] and
    [StatusRequest] of [part_001], which call it, return nil. *)
Theorem facade_hides_request_failure :
  (exists w',
      Rev1.request sample_service CRT571_CM_INITIALIZE
                   CRT571_PM_INITIALIZE_MOVE_CARD [] port_write_fails
      = Ret ([], [], Some (port_error "input/output error")) w') /\
  (exists w',
      Rev1.Initialization sample_service CRT571_PM_INITIALIZE_MOVE_CARD
                          port_write_fails
      = Ret None w') /\
  (exists w',
      Rev1.StatusRequest sample_service CRT571_PM_STATUS_DEVICE port_write_fails
      = Ret None w').
Proof.
  split; [|split]; eexists; vm_compute; reflexivity.
Qed.

(* ------------------------------------------------------------------ *)
(** ** The older revisions *)

(** In [src/crt571.go] the length field is the payload length without the
    three header bytes, a second start marker follows the end marker, and
    the checksum is the constant 0x99. *)
Lemma rev0_status_request_frame :
  Rev0.MakeRequest_frame sample_service 0x31 0x30 []
  = [0xf2; 0x00; 0x00; 0x00; 0x43; 0x31; 0x30; 0x03; 0xf2; 0x99].
Proof. reflexivity. Qed.

Lemma rev0_frame_len (service : CRT571Service) (cm pm : Z) (data : list Z) :
  len (Rev0.MakeRequest_frame service cm pm data) = len data + 10.
Proof.
  unfold Rev0.MakeRequest_frame, len. rewrite !length_app. simpl. lia.
Qed.

(** In [src/crt571.go] a reply with an unknown marker gives neither a
    buffer nor an error. *)
Lemma rev0_unknown_marker_returns_nil_nil :
  exists w',
    Rev0.MakeRequest sample_service 0x31 0x30 []
      (mkWorld [([0xf2; 0x00; 0x00; 0x03; 0x77], None)] [] [] [])
    = Ret ([], None) w'.
Proof. eexists. vm_compute. reflexivity. Qed.

Lemma rev0_Initialization_returns_nil (service : CRT571Service) (pm : Z) :
  returns (Rev0.Initialization service pm) (fun e => e = None).
Proof.
  unfold Rev0.Initialization.
  apply returns_bind_any. intros _. apply returns_ret. reflexivity.
Qed.

(** In [src/unnamed/part_001] the marker 0x4E is not known: such a reply
    is answered with the error for an unknown marker. *)
Lemma rev1_alternate_marker_unknown (buf : list Z) (w : World) :
  5 <= len buf -> nth 4 buf 0 = CRT571_EMT2 ->
  Rev1.request_decode buf w
  = Ret ([], [], Some (errors_New "[ERROR] Unknow data response status [ 4e]")) w.
Proof.
  intros Hlen Hty. unfold Rev1.request_decode.
  rewrite bind_slice_ok by lia.
  rewrite bind_index_ok by lia.
  change (Z.to_nat 4) with 4%nat. rewrite Hty. reflexivity.
Qed.

(* ================================================================== *)
(** * Further properties of the code *)

(* ------------------------------------------------------------------ *)
(** ** The checksum as an error check *)

Lemma lxor_cancel_r (x y z : Z) : Z.lxor x z = Z.lxor y z -> x = y.
Proof.
  intros H. apply Z.lxor_eq.
  replace (Z.lxor x y) with (Z.lxor (Z.lxor x z) (Z.lxor y z)).
  - rewrite H. apply Z.lxor_nilpotent.
  - apply Z.bits_inj'. intros n _. rewrite !Z.lxor_spec.
    destruct (Z.testbit x n), (Z.testbit y n), (Z.testbit z n); reflexivity.
Qed.

Lemma fold_xor_acc (bs : list Z) (acc : Z) :
  fold_left Z.lxor bs acc = Z.lxor acc (fold_left Z.lxor bs 0).
Proof.
  revert acc. induction bs as [|b bs IH]; intros acc; simpl.
  - symmetry. apply Z.lxor_0_r.
  - rewrite (IH (Z.lxor acc b)), (IH b). apply Z.lxor_assoc.
Qed.

(** X1.  The frame [request] builds passes the driver's own check: for its
    last byte and the bytes before it, [bccCheck] answers true. *)
Theorem request_frame_passes_bccCheck
  (service : CRT571Service) (cm pm : Z) (data : list Z) (w : World) :
  let frame := request_frame service cm pm data in
  exists w', bccCheck (last frame 0) (removelast frame) w = Ret true w'.
Proof.
  intros frame. subst frame. unfold request_frame.
  rewrite last_last, removelast_last.
  unfold bccCheck, bind, log_Printf, ret.
  rewrite Z.eqb_refl. eexists. reflexivity.
Qed.

(** X2.  The checksum tells any change of a single byte: two sequences
    that differ in exactly one position have different checksums. *)
Theorem bccCalc_detects_single_change (l1 l2 : list Z) (a a' : Z) :
  a <> a' -> bccCalc (l1 ++ a :: l2) <> bccCalc (l1 ++ a' :: l2).
Proof.
  intros Hne Heq. apply Hne.
  rewrite !bccCalc_running_xor in Heq. unfold running_xor in Heq.
  rewrite !fold_left_app in Heq. simpl in Heq.
  rewrite (fold_xor_acc l2 (Z.lxor _ a)), (fold_xor_acc l2 (Z.lxor _ a')) in Heq.
  apply lxor_cancel_r in Heq.
  rewrite (Z.lxor_comm _ a), (Z.lxor_comm _ a') in Heq.
  apply lxor_cancel_r in Heq. exact Heq.
Qed.

Lemma bccCalc_detects_single_change_witness :
  0x31 <> 0x30 /\
  bccCalc ([0xf2; 0x00] ++ 0x31 :: [0x03]) <> bccCalc ([0xf2; 0x00] ++ 0x30 :: [0x03]).
Proof.
  assert (H : 0x31 <> 0x30) by discriminate.
  split; [exact H|].
  apply (bccCalc_detects_single_change [0xf2; 0x00] [0x03] 0x31 0x30 H).
Defined.

(** X3.  The checksum does not see the order of the bytes: a sequence and
    any rearrangement of it have the same checksum. *)
Theorem bccCalc_blind_to_order (l l' : list Z) :
  Permutation l l' -> bccCalc l = bccCalc l'.
Proof.
  intros Hperm. rewrite !bccCalc_running_xor. unfold running_xor.
  generalize 0 as acc.
  induction Hperm as [|x l l' _ IH|x y l|l l' l'' _ IH1 _ IH2]; intros acc; simpl.
  - reflexivity.
  - apply IH.
  - f_equal. rewrite !Z.lxor_assoc. f_equal. apply Z.lxor_comm.
  - rewrite IH1. apply IH2.
Qed.

Lemma bccCalc_blind_to_order_witness :
  Permutation [0x31; 0x30; 0x03] [0x30; 0x31; 0x03] /\
  bccCalc [0x31; 0x30; 0x03] = bccCalc [0x30; 0x31; 0x03].
Proof.
  assert (H : Permutation [0x31; 0x30; 0x03] [0x30; 0x31; 0x03]) by apply perm_swap.
  split; [exact H|].
  apply (bccCalc_blind_to_order _ _ H).
Defined.

(* ------------------------------------------------------------------ *)
(** ** The request frame as an encoding *)

(** X4.  Two requests that give the same frame are the same request: the
    frame fixes the address, the command, the parameter and the payload. *)
Theorem request_frame_injective
  (s s' : CRT571Service) (cm cm' pm pm' : Z) (data data' : list Z) :
  request_frame s cm pm data = request_frame s' cm' pm' data' ->
  address s = address s' /\ cm = cm' /\ pm = pm' /\ data = data'.
Proof.
  unfold request_frame, PutUint16. simpl. intros H.
  injection H as Haddr _ _ Hcm Hpm Htail.
  apply app_inj_tail in Htail. destruct Htail as [Htail _].
  apply app_inj_tail in Htail. destruct Htail as [Hdata _].
  repeat split; assumption.
Qed.

Lemma request_frame_injective_witness :
  request_frame sample_service 0x31 0x30 [0x01] = request_frame sample_service 0x31 0x30 [0x01] /\
  [0x01] = [0x01].
Proof.
  assert (H : request_frame sample_service 0x31 0x30 [0x01]
              = request_frame sample_service 0x31 0x30 [0x01]) by reflexivity.
  split; [exact H|].
  apply (request_frame_injective _ _ _ _ _ _ _ _ H).
Defined.

(** X5.  When the address, the command, the parameter and the payload are
    bytes, every element of the frame is a byte: the two length bytes and
    the checksum never leave the range. *)
Theorem request_frame_bytes
  (service : CRT571Service) (cm pm : Z) (data : list Z) :
  is_byte (address service) -> is_byte cm -> is_byte pm -> Forall is_byte data ->
  Forall is_byte (request_frame service cm pm data).
Proof.
  intros Ha Hcm Hpm Hdata.
  assert (Hmod : forall x, is_byte (to_byte x)).
  { intros x. unfold is_byte, to_byte. apply Z.mod_pos_bound. lia. }
  assert (Hb : Forall is_byte
                 ([CRT571_STX] ++ [address service]
                    ++ PutUint16 (to_uint16 (len data + 3))
                    ++ [CRT571_CMT] ++ [cm] ++ [pm] ++ data ++ [CRT571_ETX])).
  { unfold PutUint16. simpl.
    repeat (apply Forall_cons; [first [assumption | apply Hmod | unfold is_byte; cbv; split; congruence]|]).
    apply Forall_app. split; [assumption|].
    apply Forall_cons; [unfold is_byte; cbv; split; congruence|constructor]. }
  unfold request_frame. apply Forall_app. split; [exact Hb|].
  apply Forall_cons; [apply bccCalc_byte; exact Hb|constructor].
Qed.

Lemma request_frame_bytes_witness :
  is_byte (address sample_service) /\
  Forall is_byte (request_frame sample_service 0x32 0x39 [0xff; 0x00]).
Proof.
  assert (Hb : forall x, 0 <= x < 256 -> is_byte x) by (intros x H; exact H).
  assert (Ha : is_byte (address sample_service)) by (apply Hb; vm_compute; split; congruence).
  split; [exact Ha|].
  apply (request_frame_bytes sample_service 0x32 0x39 [0xff; 0x00] Ha).
  - apply Hb; lia.
  - apply Hb; lia.
  - repeat constructor; unfold is_byte; lia.
Defined.

(* ------------------------------------------------------------------ *)
(** ** Reading from the port *)

Lemma bind_log {A} (f : string) (args : list logarg) (k : unit -> M A) (w : World) :
  bind (log_Printf f args) k w = k tt (logged w (Log f args)).
Proof. reflexivity. Qed.

Lemma bind_Read {A} (capacity : Z) (k : list Z * option error -> M A) (w : World)
      (d : list Z) (e : option error) (rx' : list readevent) :
  rx w = (d, e) :: rx' ->
  bind (port_Read capacity) k w
  = k (firstn (Z.to_nat capacity) d, e) (mkWorld rx' (wr w) (sent w) (logs w)).
Proof. intros H. unfold bind, port_Read. rewrite H. reflexivity. Qed.

Lemma store_nil (buf : list Z) (i : Z) : store buf i [] = buf.
Proof. unfold store. simpl. rewrite Nat.add_0_r. apply firstn_skipn. Qed.

Lemma store_store (buf : list Z) (i : Z) (c e : list Z) :
  0 <= i -> i + len c + len e <= len buf ->
  store (store buf i c) (i + len c) e = store buf i (c ++ e).
Proof.
  intros Hi Hfit. unfold store, len in *.
  replace (Z.to_nat (i + Z.of_nat (length c))) with (Z.to_nat i + length c)%nat by lia.
  set (k := Z.to_nat i) in *.
  assert (Hk : length (firstn k buf) = k) by (rewrite length_firstn; lia).
  rewrite (app_assoc (firstn k buf) c).
  replace (k + length c)%nat with (length (firstn k buf ++ c) + 0)%nat at 1
    by (rewrite length_app; lia).
  rewrite firstn_app_2. simpl firstn. rewrite app_nil_r.
  rewrite skipn_app.
  rewrite (skipn_all2 (firstn k buf ++ c)) by (rewrite length_app; lia).
  rewrite skipn_skipn. rewrite !length_app, Hk. simpl app.
  rewrite <- !app_assoc. do 3 f_equal. f_equal. lia.
Qed.

Lemma read_loop_delivers (chunks : list (list Z)) :
  forall (fuel : nat) (buf : list Z) (i : Z) (rest : list readevent) (w : World),
    rx w = delivers chunks rest ->
    (length chunks < fuel)%nat ->
    0 <= i -> i + len (concat chunks) <= len buf ->
    exists w',
      read_loop fuel buf i w
      = Ret (store buf i (concat chunks), i + len (concat chunks), None) w' /\
      rx w' = rest /\ wr w' = wr w /\ sent w' = sent w.
Proof.
  induction chunks as [|c chunks IH]; intros fuel buf i rest w Hrx Hfuel Hi Hfit;
    (destruct fuel as [|fuel]; [simpl in Hfuel; lia|]); simpl read_loop.
  - change (len (concat [])) with 0 in Hfit. pose proof (len_nonneg buf).
    rewrite bind_slice_ok by lia.
    rewrite (bind_Read _ _ _ _ _ _ Hrx). cbv beta iota.
    change (is_EOF io_EOF) with true. cbv iota.
    rewrite firstn_nil. rewrite store_nil.
    change (len []) with 0.
    rewrite bind_slice_ok by lia.
    rewrite bind_log. unfold ret.
    simpl concat. rewrite store_nil.
    change (len []) with 0. rewrite Z.add_0_r.
    eexists. split; [reflexivity|]. repeat split.
  - simpl concat in *. pose proof (len_nonneg buf).
    assert (Hsplit : len (c ++ concat chunks) = len c + len (concat chunks)).
    { unfold len. rewrite length_app. lia. }
    pose proof (len_nonneg c). pose proof (len_nonneg (concat chunks)).
    rewrite bind_slice_ok by lia.
    rewrite (bind_Read _ _ _ _ _ _ Hrx). cbv beta iota.
    rewrite len_sub by lia.
    rewrite firstn_all2 by (unfold len in *; lia).
    assert (Hs : len (store buf i c) = len buf) by (apply len_store; lia).
    rewrite bind_slice_ok by lia.
    rewrite bind_log.
    match goal with |- context [read_loop fuel _ _ ?w1] =>
      destruct (IH fuel (store buf i c) (i + len c) rest w1)
        as (w' & Hread & Hrx' & Hwr' & Hsent');
        [reflexivity|simpl in Hfuel; lia|lia|lia|]
    end.
    exists w'. rewrite Hread. rewrite store_store by lia.
    rewrite Hsplit, Z.add_assoc.
    split; [reflexivity|]. split; [exact Hrx'|]. split; [exact Hwr'|exact Hsent'].
Qed.

Lemma read_delivers (chunks : list (list Z)) (rest : list readevent)
      (buf : list Z) (w : World) :
  rx w = delivers chunks rest ->
  len (concat chunks) <= len buf ->
  exists w',
    read buf w = Ret (store buf 0 (concat chunks), len (concat chunks), None) w' /\
    rx w' = rest /\ wr w' = wr w /\ sent w' = sent w.
Proof.
  intros Hrx Hfit. unfold read.
  destruct (read_loop_delivers chunks (S (length (rx w))) buf 0 rest w Hrx)
    as (w' & Hread & H); try lia.
  - rewrite Hrx. unfold delivers. rewrite length_app, length_map. simpl. lia.
  - exists w'. split; [exact Hread|exact H].
Qed.

Lemma sub_store_head (buf d : list Z) :
  sub (store buf 0 d) 0 (len d) = d.
Proof.
  unfold sub, store, len. simpl.
  rewrite Z.sub_0_r, Nat2Z.id.
  replace (length d) with (length d + 0)%nat at 1 by lia.
  rewrite firstn_app_2. simpl. apply app_nil_r.
Qed.

(** X6.  [read] gathers what the port delivers until the end of the
    stream: for chunks that fit into the buffer, the count returned is
    their total length, the buffer starts with the chunks in their order,
    no error is returned, and the events after the end of the stream are
    left for the next read. *)
Theorem read_accumulates_chunks
  (chunks : list (list Z)) (rest : list readevent) (buf : list Z) (w : World) :
  rx w = delivers chunks rest ->
  len (concat chunks) <= len buf ->
  exists buf' w',
    read buf w = Ret (buf', len (concat chunks), None) w' /\
    sub buf' 0 (len (concat chunks)) = concat chunks /\
    len buf' = len buf /\
    rx w' = rest /\ wr w' = wr w /\ sent w' = sent w.
Proof.
  intros Hrx Hfit.
  destruct (read_delivers chunks rest buf w Hrx Hfit) as (w' & Hread & H).
  exists (store buf 0 (concat chunks)), w'.
  split; [exact Hread|]. split; [apply sub_store_head|].
  split; [|exact H].
  apply len_store; [lia|]. lia.
Qed.

Lemma read_accumulates_chunks_witness :
  let w := mkWorld (delivers [[0x06]; [0xf2; 0x00]; [0x00; 0x03]] []) [] [] [] in
  rx w = delivers [[0x06]; [0xf2; 0x00]; [0x00; 0x03]] [] /\
  exists buf' w',
    read (repeat 0 8%nat) w = Ret (buf', 5, None) w' /\
    sub buf' 0 5 = [0x06; 0xf2; 0x00; 0x00; 0x03].
Proof.
  intros w.
  assert (H : rx w = delivers [[0x06]; [0xf2; 0x00]; [0x00; 0x03]] []) by reflexivity.
  split; [exact H|].
  destruct (read_accumulates_chunks _ _ (repeat 0 8%nat) w H)
    as (buf' & w' & Hread & Hsub & _); [vm_compute; discriminate|].
  exists buf', w'. split; [exact Hread|exact Hsub].
Defined.

Lemma returns_read_loop_error (fuel : nat) :
  forall buf i,
    returns (read_loop fuel buf i)
            (fun r => let '(_, n, err) := r in
                      (err <> None -> n = 0) /\ err <> Some io_EOF).
Proof.
  induction fuel as [|fuel IH]; intros buf i; simpl.
  - intros w a w' H. discriminate.
  - apply returns_bind_any. intros rest.
    apply returns_bind_any. intros [d err].
    destruct err as [e|].
    + destruct (is_EOF e) eqn:He.
      * apply returns_bind_any. intros chunk.
        apply returns_bind_any. intros _.
        apply returns_ret. split; [intros H; contradiction|discriminate].
      * apply returns_bind_any. intros _.
        apply returns_ret. split; [reflexivity|].
        intros H. inversion H; subst. discriminate.
    + apply returns_bind_any. intros chunk.
      apply returns_bind_any. intros _.
      apply IH.
Qed.

(** X7.  Whatever the port does, [read] keeps the size of the buffer and
    counts no more bytes than the buffer holds; when it returns an error the
    count is 0, also after chunks were stored, and the end of the stream is
    never returned as an error. *)
Theorem read_result_shape
  (buf : list Z) (w : World) (buf' : list Z) (n : Z) (err : option error) (w' : World) :
  read buf w = Ret (buf', n, err) w' ->
  len buf' = len buf /\ 0 <= n <= len buf /\
  (err <> None -> n = 0) /\ err <> Some io_EOF.
Proof.
  intros H.
  pose proof (returns_read buf w _ w' H) as [H1 H2].
  unfold read in H.
  pose proof (returns_read_loop_error _ buf 0 w _ w' H) as [H3 H4].
  repeat split; try assumption; lia.
Qed.

Lemma read_result_shape_witness :
  let w := mkWorld [([0x06; 0xf2], None); ([0x00], Some (port_error "input/output error"))]
                   [] [] [] in
  exists buf' w',
    read (repeat 0 8%nat) w = Ret (buf', 0, Some (port_error "input/output error")) w' /\
    len buf' = 8.
Proof.
  intros w.
  destruct (read (repeat 0 8%nat) w) as [[[buf' n] err] w'|p w'|w'] eqn:H;
    try (vm_compute in H; discriminate).
  pose proof H as Hval. vm_compute in Hval. injection Hval as _ Hn Herr _.
  destruct (read_result_shape _ _ _ _ _ _ H) as (Hlen & _).
  exists buf', w'. rewrite <- Hn, <- Herr. split; [reflexivity|exact Hlen].
Defined.

(* ------------------------------------------------------------------ *)
(** ** The exchange on given port scripts *)

Lemma bind_ret {A B} (a : A) (k : A -> M B) (w : World) : bind (ret a) k w = k a w.
Proof. reflexivity. Qed.

Lemma bind_bind {A B C} (m : M A) (f : A -> M B) (k : B -> M C) (w : World) :
  bind (bind m f) k w = bind m (fun a => bind (f a) k) w.
Proof. unfold bind. destruct (m w); reflexivity. Qed.

Lemma bind_Write_ok {A} (d : list Z) (k : Z * option error -> M A) (w : World) :
  writes_succeed w ->
  bind (port_Write d) k w
  = k (len d, None) (mkWorld (rx w) (tl (wr w)) (sent w ++ [d]) (logs w)).
Proof.
  intros H. unfold bind, port_Write, writes_succeed in *.
  destruct (wr w) as [|[e|] wr']; try reflexivity.
  inversion H as [|? ? Hhd _]. discriminate.
Qed.

Lemma bind_Write_fails {A} (d : list Z) (k : Z * option error -> M A) (w : World)
      (e : error) (wr' : list (option error)) :
  wr w = Some e :: wr' ->
  bind (port_Write d) k w
  = k (0, Some e) (mkWorld (rx w) wr' (sent w ++ [d]) (logs w)).
Proof. intros H. unfold bind, port_Write. rewrite H. reflexivity. Qed.

Lemma writes_succeed_tl (l : list (option error)) :
  Forall (fun r : option error => r = None) l ->
  Forall (fun r : option error => r = None) (tl l).
Proof. intros H. destruct H; [constructor|assumption]. Qed.

(** What [exchange] does once the handshake has given a reply of at
    least one byte, on a port that accepts the write of the acknowledge. *)
Lemma exchange_after_handshake
  (data : list Z) (w : World) (buf : list Z) (n : Z) (w1 : World) :
  exchange_handshake data w = Ret (buf, n, None) w1 ->
  1 <= n <= len buf -> writes_succeed w1 ->
  exists w2,
    exchange data w = Ret (buf, None) w2 /\
    sent w2 = sent w1 ++ [[CRT571_ACK]] /\ rx w2 = rx w1 /\ writes_succeed w2.
Proof.
  intros Hhs Hn Hwr.
  unfold exchange. rewrite (bind_Ret _ _ _ _ _ Hhs). cbv iota beta.
  rewrite bind_index_ok by lia.
  rewrite bind_slice_ok by lia.
  unfold bccCheck. rewrite bind_bind, bind_log.
  match goal with |- context [if ?c then ret true else ret false] => destruct c end;
    rewrite bind_ret; cbv iota beta; simpl negb; cbv iota;
    rewrite bind_log; rewrite bind_Write_ok by exact Hwr; cbv iota beta;
    rewrite bind_log; unfold ret;
    eexists; (split; [reflexivity|]); simpl;
    (split; [reflexivity|]); (split; [reflexivity|]);
    apply writes_succeed_tl; exact Hwr.
Qed.

Lemma store_head (buf d : list Z) : store buf 0 d = d ++ skipn (length d) buf.
Proof. reflexivity. Qed.

Lemma sub_tail (a : Z) (t : list Z) : sub (a :: t) 1 (len (a :: t)) = t.
Proof.
  unfold sub, len. change (length (a :: t)) with (S (length t)).
  replace (Z.to_nat (Z.of_nat (S (length t)) - 1)) with (length t) by lia.
  change (skipn (Z.to_nat 1) (a :: t)) with t. apply firstn_all.
Qed.

Lemma sub_prefix (r x : list Z) : sub (r ++ x) 0 (len r) = r.
Proof.
  unfold sub, len. rewrite Z.sub_0_r, Nat2Z.id.
  change (skipn (Z.to_nat 0) (r ++ x)) with (r ++ x).
  replace (length r) with (length r + 0)%nat at 1 by lia.
  rewrite firstn_app_2. change (firstn 0 x) with (@nil Z). apply app_nil_r.
Qed.

Lemma sub_reply_coalesced (buf r : list Z) (a : Z) :
  sub (sub (store buf 0 (a :: r)) 1 (len (store buf 0 (a :: r)))) 0 (len r) = r.
Proof.
  rewrite store_head. change ((a :: r) ++ ?x) with (a :: (r ++ x)).
  rewrite sub_tail. apply sub_prefix.
Qed.

(** The handshake when the acknowledge and the reply come before the
    first end of the stream, in whatever chunks. *)
Lemma handshake_coalesced (data r : list Z) (chunks : list (list Z))
      (rest : list readevent) (w : World) :
  writes_succeed w ->
  rx w = delivers chunks rest ->
  concat chunks = CRT571_ACK :: r ->
  1 <= len r <= 1023 ->
  exists buf w1,
    exchange_handshake data w = Ret (buf, len r, None) w1 /\
    len buf = 1023 /\ sub buf 0 (len r) = r /\
    sent w1 = sent w ++ [data] /\ rx w1 = rest /\ writes_succeed w1.
Proof.
  intros Hwr Hrx Hc Hr. unfold exchange_handshake.
  rewrite bind_log. rewrite bind_Write_ok by exact Hwr. cbv beta iota.
  rewrite bind_log.
  assert (Hlen1 : len (CRT571_ACK :: r) = 1 + len r).
  { unfold len. simpl length. lia. }
  match goal with |- context [bind (read ?b) _ ?w2] =>
    destruct (read_delivers chunks rest b w2)
      as (w3 & Hread & Hrx3 & Hwr3 & Hsent3);
      [exact Hrx
      |rewrite Hc, Hlen1, len_fresh_buffer; lia|]
  end.
  rewrite Hc in Hread.
  rewrite (bind_Ret _ _ _ _ _ Hread). cbv beta iota.
  set (b1 := store (repeat 0 (Z.to_nat CRT571_BUFFER_MAX_LENGTH)) 0 (CRT571_ACK :: r)) in *.
  assert (Hb1 : len b1 = 1024).
  { subst b1. rewrite len_store; [apply len_fresh_buffer|lia|].
    rewrite len_fresh_buffer. lia. }
  rewrite bind_slice_ok by lia.
  rewrite bind_log.
  rewrite bind_index_ok by lia.
  change (nth (Z.to_nat 0) b1 0) with CRT571_ACK.
  rewrite Z.eqb_refl. change (negb true) with false. cbv iota.
  destruct (Z.gtb_spec (len (CRT571_ACK :: r)) 1) as [_|Hbad]; [|lia].
  rewrite bind_bind. rewrite bind_slice_ok by lia.
  rewrite bind_ret. cbv beta iota.
  rewrite bind_slice_ok by (rewrite ?len_sub; lia).
  rewrite bind_log. unfold ret.
  replace (len (CRT571_ACK :: r) - 1) with (len r) by lia.
  eexists _, _. split; [reflexivity|].
  split; [rewrite len_sub; lia|].
  split; [subst b1; apply sub_reply_coalesced|].
  split; [simpl; rewrite Hsent3; reflexivity|].
  split; [simpl; exact Hrx3|].
  unfold writes_succeed. simpl. rewrite Hwr3. simpl.
  apply writes_succeed_tl. exact Hwr.
Qed.

Lemma nth0_store_fresh (c : list Z) :
  nth 0 (store (repeat 0 (Z.to_nat CRT571_BUFFER_MAX_LENGTH)) 0 c) 0 = hd 0 c.
Proof. destruct c as [|a c]; [rewrite store_nil|]; reflexivity. Qed.

(** The handshake when the acknowledge comes alone and the reply after the
    next end of the stream. *)
Lemma handshake_apart (data : list Z) (acks chunks : list (list Z))
      (rest : list readevent) (w : World) :
  writes_succeed w ->
  rx w = delivers acks (delivers chunks rest) ->
  concat acks = [CRT571_ACK] ->
  len (concat chunks) <= 1024 ->
  exists buf w1,
    exchange_handshake data w = Ret (buf, len (concat chunks), None) w1 /\
    len buf = 1024 /\ sub buf 0 (len (concat chunks)) = concat chunks /\
    sent w1 = sent w ++ [data] /\ rx w1 = rest /\ writes_succeed w1.
Proof.
  intros Hwr Hrx Hc Hr. unfold exchange_handshake.
  rewrite bind_log. rewrite bind_Write_ok by exact Hwr. cbv beta iota.
  rewrite bind_log.
  match goal with |- context [bind (read ?b) _ ?w2] =>
    destruct (read_delivers acks (delivers chunks rest) b w2)
      as (w3 & Hread & Hrx3 & Hwr3 & Hsent3);
      [exact Hrx|rewrite Hc, len_fresh_buffer; unfold len; simpl; lia|]
  end.
  rewrite Hc in Hread. change (len [CRT571_ACK]) with 1 in Hread.
  rewrite (bind_Ret _ _ _ _ _ Hread). cbv beta iota.
  set (b1 := store (repeat 0 (Z.to_nat CRT571_BUFFER_MAX_LENGTH)) 0 [CRT571_ACK]) in *.
  assert (Hb1 : len b1 = 1024) by reflexivity.
  rewrite bind_slice_ok by lia.
  rewrite bind_log.
  rewrite bind_index_ok by lia.
  change (nth (Z.to_nat 0) b1 0) with CRT571_ACK.
  rewrite Z.eqb_refl. change (negb true) with false. cbv iota.
  change (1 >? 1) with false. cbv iota.
  match goal with |- context [bind (read b1) _ ?w4] =>
    destruct (read_delivers chunks rest b1 w4)
      as (w5 & Hread2 & Hrx5 & Hwr5 & Hsent5);
      [simpl; exact Hrx3|lia|]
  end.
  rewrite (bind_Ret _ _ _ _ _ Hread2). cbv beta iota.
  pose proof (len_nonneg (concat chunks)).
  assert (Hb2 : len (store b1 0 (concat chunks)) = 1024).
  { rewrite len_store; lia. }
  rewrite bind_slice_ok by lia.
  rewrite bind_log. unfold ret.
  eexists _, _. split; [reflexivity|].
  split; [exact Hb2|]. split; [apply sub_store_head|].
  split; [simpl; rewrite Hsent5; simpl; rewrite Hsent3; reflexivity|].
  split; [simpl; exact Hrx5|].
  unfold writes_succeed. simpl. rewrite Hwr5. simpl. rewrite Hwr3. simpl.
  apply writes_succeed_tl. exact Hwr.
Qed.

(** X8.  When the acknowledge and the reply arrive before the first end
    of the stream (in one chunk or in several), [exchange] takes the bytes
    after the acknowledge as the reply: it returns a buffer of 1023 bytes
    that starts with them, and has written the frame and then the
    acknowledge token, nothing else. *)
Theorem exchange_reply_with_acknowledge
  (data r : list Z) (chunks : list (list Z)) (rest : list readevent) (w : World) :
  writes_succeed w ->
  rx w = delivers chunks rest ->
  concat chunks = CRT571_ACK :: r ->
  1 <= len r <= 1023 ->
  exists buf w',
    exchange data w = Ret (buf, None) w' /\
    len buf = 1023 /\ sub buf 0 (len r) = r /\
    sent w' = sent w ++ [data; [CRT571_ACK]] /\ rx w' = rest.
Proof.
  intros Hwr Hrx Hc Hr.
  destruct (handshake_coalesced data r chunks rest w Hwr Hrx Hc Hr)
    as (buf & w1 & Hhs & Hlen & Hsub & Hsent & Hrx1 & Hwr1).
  destruct (exchange_after_handshake data w buf (len r) w1 Hhs ltac:(lia) Hwr1)
    as (w2 & Hex & Hsent2 & Hrx2 & _).
  exists buf, w2. split; [exact Hex|]. split; [exact Hlen|]. split; [exact Hsub|].
  split; [rewrite Hsent2, Hsent, <- app_assoc; reflexivity|].
  rewrite Hrx2. exact Hrx1.
Qed.

Lemma exchange_reply_with_acknowledge_witness :
  let w := mkWorld (delivers [[CRT571_ACK; 0xf2]; [0x00; 0x00]] []) [] [] [] in
  writes_succeed w /\
  exists buf w',
    exchange [0x01] w = Ret (buf, None) w' /\
    sub buf 0 3 = [0xf2; 0x00; 0x00] /\ sent w' = [[0x01]; [CRT571_ACK]].
Proof.
  intros w.
  assert (Hwr : writes_succeed w) by constructor.
  split; [exact Hwr|].
  destruct (exchange_reply_with_acknowledge [0x01] [0xf2; 0x00; 0x00]
              [[CRT571_ACK; 0xf2]; [0x00; 0x00]] [] w Hwr eq_refl eq_refl)
    as (buf & w' & Hex & _ & Hsub & Hsent & _).
  { vm_compute. split; discriminate. }
  exists buf, w'. split; [exact Hex|]. split; [exact Hsub|exact Hsent].
Defined.

(** X9.  When the acknowledge comes alone and the reply only after the
    line was silent once, [exchange] reads again into the same buffer: it
    returns the whole buffer of 1024 bytes, which starts with the reply (the
    acknowledge byte is overwritten), and has written the frame and then
    the acknowledge token. *)
Theorem exchange_reply_after_acknowledge
  (data : list Z) (acks chunks : list (list Z)) (rest : list readevent) (w : World) :
  writes_succeed w ->
  rx w = delivers acks (delivers chunks rest) ->
  concat acks = [CRT571_ACK] ->
  1 <= len (concat chunks) <= 1024 ->
  exists buf w',
    exchange data w = Ret (buf, None) w' /\
    len buf = 1024 /\ sub buf 0 (len (concat chunks)) = concat chunks /\
    sent w' = sent w ++ [data; [CRT571_ACK]] /\ rx w' = rest.
Proof.
  intros Hwr Hrx Hc Hr.
  destruct (handshake_apart data acks chunks rest w Hwr Hrx Hc ltac:(lia))
    as (buf & w1 & Hhs & Hlen & Hsub & Hsent & Hrx1 & Hwr1).
  destruct (exchange_after_handshake data w buf _ w1 Hhs ltac:(lia) Hwr1)
    as (w2 & Hex & Hsent2 & Hrx2 & _).
  exists buf, w2. split; [exact Hex|]. split; [exact Hlen|]. split; [exact Hsub|].
  split; [rewrite Hsent2, Hsent, <- app_assoc; reflexivity|].
  rewrite Hrx2. exact Hrx1.
Qed.

Lemma exchange_reply_after_acknowledge_witness :
  let w := mkWorld (delivers [[CRT571_ACK]] (delivers [[0xf2; 0x00]; [0x00]] [])) [] [] [] in
  writes_succeed w /\
  exists buf w',
    exchange [0x01] w = Ret (buf, None) w' /\
    sub buf 0 3 = [0xf2; 0x00; 0x00] /\ len buf = 1024.
Proof.
  intros w.
  assert (Hwr : writes_succeed w) by constructor.
  split; [exact Hwr|].
  destruct (exchange_reply_after_acknowledge [0x01] [[CRT571_ACK]]
              [[0xf2; 0x00]; [0x00]] [] w Hwr eq_refl eq_refl)
    as (buf & w' & Hex & Hlen & Hsub & _).
  { vm_compute. split; discriminate. }
  exists buf, w'. split; [exact Hex|]. split; [exact Hsub|exact Hlen].
Defined.

(** X10.  When what arrives before the first end of the stream does not
    start with the acknowledge token (a negative acknowledge, any other
    byte, or nothing at all), [exchange] returns the error "ACK is absent";
    it has written the frame only: no token is sent back and the frame is
    not sent again. *)
Theorem exchange_without_acknowledge
  (data : list Z) (chunks : list (list Z)) (rest : list readevent) (w : World) :
  writes_succeed w ->
  rx w = delivers chunks rest ->
  len (concat chunks) <= 1024 ->
  hd 0 (concat chunks) <> CRT571_ACK ->
  exists w',
    exchange data w = Ret ([], Some (errors_New "ACK is absent")) w' /\
    sent w' = sent w ++ [data] /\ rx w' = rest.
Proof.
  intros Hwr Hrx Hfit Hno.
  unfold exchange, exchange_handshake.
  rewrite bind_bind, bind_log.
  rewrite bind_bind, bind_Write_ok by exact Hwr. cbv beta iota.
  rewrite bind_bind, bind_log. rewrite bind_bind.
  match goal with |- context [bind (read ?b) _ ?w2] =>
    destruct (read_delivers chunks rest b w2)
      as (w3 & Hread & Hrx3 & Hwr3 & Hsent3);
      [exact Hrx|rewrite len_fresh_buffer; exact Hfit|]
  end.
  rewrite (bind_Ret _ _ _ _ _ Hread). cbv beta iota.
  pose proof (len_nonneg (concat chunks)).
  assert (Hb1 : len (store (repeat 0 (Z.to_nat CRT571_BUFFER_MAX_LENGTH)) 0 (concat chunks)) = 1024).
  { rewrite len_store; rewrite ?len_fresh_buffer; lia. }
  rewrite bind_bind, bind_slice_ok by lia.
  rewrite bind_bind, bind_log.
  rewrite bind_bind, bind_index_ok by lia.
  change (Z.to_nat 0) with 0%nat. rewrite nth0_store_fresh.
  destruct (Z.eqb_spec (hd 0 (concat chunks)) CRT571_ACK) as [Heq|_]; [contradiction|].
  change (negb false) with true. cbv iota.
  rewrite bind_bind, bind_log, bind_ret. cbv beta iota. unfold ret.
  eexists. split; [reflexivity|]. simpl.
  split; [rewrite Hsent3; reflexivity|exact Hrx3].
Qed.

Lemma exchange_without_acknowledge_witness :
  let w := mkWorld (delivers [[CRT571_NAK]] []) [] [] [] in
  writes_succeed w /\ hd 0 (concat [[CRT571_NAK]]) <> CRT571_ACK /\
  exists w',
    exchange [0x01] w = Ret ([], Some (errors_New "ACK is absent")) w' /\
    sent w' = [[0x01]].
Proof.
  intros w.
  assert (Hwr : writes_succeed w) by constructor.
  assert (Hno : hd 0 (concat [[CRT571_NAK]]) <> CRT571_ACK) by discriminate.
  split; [exact Hwr|]. split; [exact Hno|].
  destruct (exchange_without_acknowledge [0x01] [[CRT571_NAK]] [] w Hwr eq_refl)
    as (w' & Hex & Hsent & _); [vm_compute; discriminate|exact Hno|].
  exists w'. split; [exact Hex|exact Hsent].
Defined.

(** X11.  When the device acknowledges and then sends nothing before the
    next end of the stream, [exchange] does not return: the byte
    [buf[len-1]] it takes for the checksum is [buf[-1]], a run-time panic.
    The frame was written, the acknowledge token was not. *)
Theorem exchange_acknowledge_without_reply
  (data : list Z) (acks chunks : list (list Z)) (rest : list readevent) (w : World) :
  writes_succeed w ->
  rx w = delivers acks (delivers chunks rest) ->
  concat acks = [CRT571_ACK] ->
  concat chunks = [] ->
  exists w',
    exchange data w = Panic (index_out_of_range (-1) 1024) w' /\
    sent w' = sent w ++ [data].
Proof.
  intros Hwr Hrx Hc Hempty.
  destruct (handshake_apart data acks chunks rest w Hwr Hrx Hc)
    as (buf & w1 & Hhs & Hlen & _ & Hsent & _).
  { rewrite Hempty. unfold len. simpl. lia. }
  rewrite Hempty in Hhs. change (len []) with 0 in Hhs.
  unfold exchange. rewrite (bind_Ret _ _ _ _ _ Hhs). cbv beta iota.
  rewrite bind_index_panic by lia. rewrite Hlen.
  exists w1. split; [reflexivity|exact Hsent].
Qed.

Lemma exchange_acknowledge_without_reply_witness :
  let w := mkWorld (delivers [[CRT571_ACK]] (delivers [] [])) [] [] [] in
  writes_succeed w /\
  exists w',
    exchange [0x01] w = Panic (index_out_of_range (-1) 1024) w' /\
    sent w' = [[0x01]].
Proof.
  intros w.
  assert (Hwr : writes_succeed w) by constructor.
  split; [exact Hwr|].
  exact (exchange_acknowledge_without_reply [0x01] [[CRT571_ACK]] [] [] w
           Hwr eq_refl eq_refl eq_refl).
Defined.

Lemma exchange_write_fails (data : list Z) (w : World) (e : error)
      (wr' : list (option error)) :
  wr w = Some e :: wr' ->
  exists w',
    exchange data w = Ret ([], Some e) w' /\
    sent w' = sent w ++ [data] /\ rx w' = rx w /\ wr w' = wr'.
Proof.
  intros Hwr. unfold exchange, exchange_handshake.
  rewrite bind_bind, bind_log.
  rewrite bind_bind, (bind_Write_fails _ _ _ e wr') by exact Hwr. cbv beta iota.
  rewrite bind_bind, bind_log, bind_ret. cbv beta iota. unfold ret.
  eexists. split; [reflexivity|]. repeat split.
Qed.

(** X12.  When the write of the frame fails, [Command] returns the port's
    error with a nil response; the port is not read and nothing more is
    written. *)
Theorem Command_write_failure
  (service : CRT571Service) (command pm : Z) (w : World) (e : error)
  (wr' : list (option error)) :
  wr w = Some e :: wr' ->
  exists w',
    Command service command pm w = Ret (None, Some e) w' /\
    sent w' = sent w ++ [request_frame service command pm []] /\
    rx w' = rx w /\ wr w' = wr'.
Proof.
  intros Hwr. unfold Command. rewrite bind_log.
  unfold request. rewrite bind_bind, bind_log. rewrite bind_bind, bind_log.
  rewrite request_frame_guard. change (len [] >? 1015) with false. cbv iota.
  rewrite bind_bind.
  match goal with |- context [bind (exchange ?d) _ ?w1] =>
    destruct (exchange_write_fails d w1 e wr' Hwr) as (w2 & Hex & Hsent & Hrx & Hwr2)
  end.
  rewrite (bind_Ret _ _ _ _ _ Hex). cbv beta iota.
  rewrite bind_ret. cbv beta iota. rewrite bind_log. unfold ret.
  eexists. split; [reflexivity|]. simpl.
  split; [exact Hsent|]. split; [exact Hrx|exact Hwr2].
Qed.

Lemma Command_write_failure_witness :
  wr port_write_fails = [Some (port_error "input/output error")] /\
  exists w',
    Command sample_service CRT571_CM_STATUS_REQUEST CRT571_PM_STATUS_DEVICE
            port_write_fails
    = Ret (None, Some (port_error "input/output error")) w' /\
    rx w' = [].
Proof.
  split; [reflexivity|].
  destruct (Command_write_failure sample_service CRT571_CM_STATUS_REQUEST
              CRT571_PM_STATUS_DEVICE port_write_fails _ [] eq_refl)
    as (w' & Hc & _ & Hrx & _).
  exists w'. split; [exact Hc|exact Hrx].
Defined.

(* ------------------------------------------------------------------ *)
(** ** What the exchange writes, on any port *)

Section Silence.

Context {A B : Type}.

Lemma sends_nothing_ret (a : A) : sends_nothing (ret a).
Proof. intros w. reflexivity. Qed.

Lemma sends_nothing_throw (p : panic) : sends_nothing (@throw A p).
Proof. intros w. reflexivity. Qed.

Lemma sends_nothing_bind (m : M A) (k : A -> M B) :
  sends_nothing m -> (forall a, sends_nothing (k a)) -> sends_nothing (bind m k).
Proof.
  intros Hm Hk w. unfold bind. specialize (Hm w).
  destruct (m w) as [a w1|p w1|w1]; simpl in *; [|exact Hm|exact Hm].
  rewrite Hk. exact Hm.
Qed.

Lemma sends_at_most_bind (l : list (list Z)) (m : M A) (k : A -> M B) :
  sends_nothing m -> (forall a, sends_at_most l (k a)) -> sends_at_most l (bind m k).
Proof.
  intros Hm Hk w. unfold bind. specialize (Hm w).
  destruct (m w) as [a w1|p w1|w1]; simpl in *; [|left; exact Hm|left; exact Hm].
  destruct (Hk a w1) as [H|H]; rewrite H, Hm; [left|right]; reflexivity.
Qed.

Lemma sends_at_most_nothing (l : list (list Z)) (m : M A) :
  sends_nothing m -> sends_at_most l m.
Proof. intros H w. left. apply H. Qed.

End Silence.

Lemma sends_nothing_log (f : string) (args : list logarg) : sends_nothing (log_Printf f args).
Proof. intros w. reflexivity. Qed.

Lemma sends_nothing_Read (capacity : Z) : sends_nothing (port_Read capacity).
Proof. intros w. unfold port_Read. destruct (rx w) as [|[d e] rx']; reflexivity. Qed.

Lemma sends_nothing_index (s : list Z) (i : Z) : sends_nothing (index s i).
Proof. unfold index. destruct (_ && _); intros w; reflexivity. Qed.

Lemma sends_nothing_slice (s : list Z) (lo hi : Z) : sends_nothing (slice s lo hi).
Proof. unfold slice. destruct (_ && _); intros w; reflexivity. Qed.

Create HintDb silent.
#[local] Hint Resolve sends_nothing_ret sends_nothing_throw sends_nothing_log
  sends_nothing_Read sends_nothing_index sends_nothing_slice : silent.

Ltac silent_step :=
  match goal with
  | |- sends_nothing (bind _ _) => apply sends_nothing_bind; [|intros ?]
  | |- sends_nothing (match ?x with _ => _ end) => destruct x
  | |- sends_nothing (if ?b then _ else _) => destruct b
  | |- sends_nothing _ => solve [auto with silent]
  end.
Ltac silent := repeat silent_step.

Lemma sends_nothing_bccCheck (bcc : Z) (data : list Z) : sends_nothing (bccCheck bcc data).
Proof. unfold bccCheck. silent. Qed.

Lemma sends_nothing_read_loop (fuel : nat) :
  forall buf i, sends_nothing (read_loop fuel buf i).
Proof.
  induction fuel as [|fuel IH]; intros buf i; simpl.
  - intros w. reflexivity.
  - silent.
Qed.

Lemma sends_nothing_read (buf : list Z) : sends_nothing (read buf).
Proof. intros w. unfold read. apply sends_nothing_read_loop. Qed.

#[local] Hint Resolve sends_nothing_bccCheck sends_nothing_read : silent.

Lemma sends_after_Write {A} (d : list Z) (k : Z * option error -> M A) :
  (forall r, sends_nothing (k r)) ->
  forall w, sent (world_of (bind (port_Write d) k w)) = sent w ++ [d].
Proof.
  intros Hk w. unfold bind, port_Write.
  destruct (wr w) as [|[e|] wr']; rewrite Hk; reflexivity.
Qed.

Lemma handshake_sends_frame (data : list Z) (w : World) :
  sent (world_of (exchange_handshake data w)) = sent w ++ [data].
Proof.
  unfold exchange_handshake. rewrite bind_log.
  rewrite sends_after_Write; [reflexivity|].
  intros [n err]. silent.
Qed.

Lemma bind_Blocked {A B} (m : M A) (k : A -> M B) (w w' : World) :
  m w = Blocked w' -> bind m k w = Blocked w'.
Proof. unfold bind. intros ->. reflexivity. Qed.

(** X13.  On any port and whatever happens, [exchange] writes the frame
    once and after it at most the one acknowledge token: never a negative
    acknowledge, never the frame a second time. *)
Theorem exchange_writes_frame_and_one_token (data : list Z) (w : World) :
  sent (world_of (exchange data w)) = sent w ++ [data] \/
  sent (world_of (exchange data w)) = sent w ++ [data; [CRT571_ACK]].
Proof.
  pose proof (handshake_sends_frame data w) as Hhs.
  unfold exchange.
  destruct (exchange_handshake data w) as [[[buf n] err] w1|p w1|w1] eqn:E;
    simpl in Hhs;
    [rewrite (bind_Ret _ _ _ _ _ E)
    |rewrite (bind_Panic _ _ _ _ _ E); left; exact Hhs
    |rewrite (bind_Blocked _ _ _ _ E); left; exact Hhs].
  cbv beta iota.
  destruct err as [e|]; [left; exact Hhs|].
  assert (Hk : sends_at_most [[CRT571_ACK]]
                 (bcc <- index buf (n - 1) ;;
                  body <- slice buf 0 (n - 1) ;;
                  ok <- bccCheck bcc body ;;
                  (if negb ok
                   then log_Printf "[ERROR] exchange(): BCC response check fail!" []
                   else log_Printf "[INFO] exchange(): BCC response check success" []) ;;;
                  '(n, err) <- port_Write [CRT571_ACK] ;;
                  match err with
                  | Some e =>
                      log_Printf "[ERROR] exchange(): Write ACK error:%s" [AErr e] ;;;
                      ret ([], Some e)
                  | None =>
                      log_Printf "[INFO] exchange(): Wrote ACK len: %v" [AInt n] ;;;
                      ret (buf, None)
                  end)).
  { apply sends_at_most_bind; [auto with silent|intros bcc].
    apply sends_at_most_bind; [auto with silent|intros body].
    apply sends_at_most_bind; [auto with silent|intros ok].
    apply sends_at_most_bind; [destruct (negb ok); auto with silent|intros _].
    intros w2. right. apply sends_after_Write. intros [n1 err1]. silent. }
  destruct (Hk w1) as [H|H]; rewrite H, Hhs; [left; reflexivity|right].
  rewrite <- app_assoc. reflexivity.
Qed.

(* ------------------------------------------------------------------ *)
(** ** What a caller gets back *)

Lemma returns_request_decode (buf : list Z) :
  returns (request_decode buf)
          (fun r => let '(res, err) := r in
                    err = None ->
                    exists resp, res = Some resp /\ Type_ resp = CRT571_PMT /\
                                 len (CardStatus resp) = 3 /\
                                 ErrorCode resp = [] /\
                                 6 <= DataLen resp /\
                                 len (Data resp) = DataLen resp - 6).
Proof.
  unfold request_decode.
  apply returns_bind_any. intros lenb.
  apply returns_bind_any. intros ty.
  destruct (Z.eqb_spec ty CRT571_PMT) as [Hty|_].
  - apply (returns_bind _ _ (fun cs => len cs = 3)).
    { apply returns_slice. intros H. rewrite len_sub; lia. }
    intros cs Hcs.
    apply returns_bind_any. intros st0.
    apply returns_bind_any. intros st1.
    apply returns_bind_any. intros st2.
    apply (returns_bind _ _ (fun d => 6 <= Uint16 lenb /\ len d = Uint16 lenb - 6)).
    { apply returns_slice. intros H. rewrite len_sub; lia. }
    intros d [H6 Hd].
    apply returns_bind_any. intros _.
    apply returns_ret. intros _.
    eexists. split; [reflexivity|]. simpl. repeat split; assumption.
  - destruct ((ty =? CRT571_EMT) || (ty =? CRT571_EMT2)).
    + apply returns_bind_any. intros d.
      apply returns_bind_any. intros ec.
      apply returns_bind_any. intros key.
      apply returns_bind_any. intros _.
      apply returns_ret. discriminate.
    + apply returns_ret. discriminate.
Qed.

Lemma returns_request (service : CRT571Service) (cm pm : Z) (data : list Z) :
  returns (request service cm pm data)
          (fun r => let '(res, err) := r in
                    err = None ->
                    exists resp, res = Some resp /\ Type_ resp = CRT571_PMT /\
                                 len (CardStatus resp) = 3 /\
                                 ErrorCode resp = [] /\
                                 6 <= DataLen resp /\
                                 len (Data resp) = DataLen resp - 6).
Proof.
  unfold request.
  apply returns_bind_any. intros _.
  apply returns_bind_any. intros _.
  destruct (_ >? _); [apply returns_ret; discriminate|].
  apply returns_bind_any. intros [buf err].
  destruct err as [e|]; [apply returns_ret; discriminate|].
  apply returns_request_decode.
Qed.

(** X14.  When [Command] returns without an error, the response it hands
    over is that of a positive reply: the marker is 0x50, there are three
    status bytes and no error code, the declared length is at least 6 and
    the payload has that length less 6. *)
Theorem Command_success_is_positive_reply
  (service : CRT571Service) (command pm : Z) (w w' : World)
  (res : option CRT571Response) :
  Command service command pm w = Ret (res, None) w' ->
  exists resp,
    res = Some resp /\ Type_ resp = 0x50 /\
    len (CardStatus resp) = 3 /\ ErrorCode resp = [] /\
    6 <= DataLen resp /\ len (Data resp) = DataLen resp - 6.
Proof.
  intros H.
  destruct (Command_success_is_request_success _ _ _ _ _ _ H) as [w1 Hreq].
  exact (returns_request _ _ _ _ _ _ _ Hreq eq_refl).
Qed.

Lemma Command_success_is_positive_reply_witness :
  exists resp w',
    Command sample_service CRT571_CM_STATUS_REQUEST CRT571_PM_STATUS_DEVICE
            (device_replies status_reply_good)
    = Ret (Some resp, None) w' /\
    CardStatus resp = [0x32; 0x32; 0x30] /\ len (Data resp) = 0.
Proof.
  destruct (Command sample_service CRT571_CM_STATUS_REQUEST CRT571_PM_STATUS_DEVICE
              (device_replies status_reply_good))
    as [[[resp|] [e|]] w'|p w'|w'] eqn:H;
    try (vm_compute in H; discriminate).
  destruct (Command_success_is_positive_reply _ _ _ _ _ _ H)
    as (resp' & Hres & _ & _ & _ & _ & Hlen).
  injection Hres as Hres. subst resp'.
  pose proof H as Hval. vm_compute in Hval. injection Hval as Hresp _.
  exists resp, w'. split; [reflexivity|].
  split; [rewrite <- Hresp; reflexivity|].
  rewrite Hlen. rewrite <- Hresp. reflexivity.
Defined.

Lemma lookup_string_missing {V} (zero : V) (m : list (string * V)) (k : string) :
  ~ In k (map fst m) -> lookup_string zero m k = zero.
Proof.
  induction m as [|[k' v] m IH]; simpl; intros Hnot; [reflexivity|].
  destruct (String.eqb_spec k' k) as [Heq|_].
  - exfalso. apply Hnot. left. exact Heq.
  - apply IH. intros Hin. apply Hnot. right. exact Hin.
Qed.

(** X15.  A negative reply whose two code bytes are no key of the error
    table is still decoded as a failure: the response carries the code,
    its message is empty, and the error returned is the one with the empty
    text. *)
Theorem negative_reply_unknown_code (buf : list Z) (w : World) :
  nth 4 buf 0 = CRT571_EMT \/ nth 4 buf 0 = CRT571_EMT2 ->
  5 <= Uint16 (sub buf 2 4) <= len buf - 4 ->
  ~ In (string_of_bytes (sub buf 6 8)) (map fst CRT571Errors) ->
  exists resp w',
    request_decode buf w = Ret (Some resp, Some (errors_New "")) w' /\
    ErrorCode resp = sub buf 6 8 /\ ErrorMessage resp = "".
Proof.
  intros Hty [H5 Hfit] Hmissing.
  rewrite request_decode_negative by assumption.
  cbv zeta. cbn [ErrorMessage ErrorCode Data].
  rewrite !(lookup_string_missing "" CRT571Errors _ Hmissing).
  eexists _, _. split; [reflexivity|]. split; reflexivity.
Qed.

Lemma negative_reply_unknown_code_witness :
  let buf := [0xf2; 0x00; 0x00; 0x05; 0x45; 0x31; 0x39; 0x39; 0x30; 0x03; 0x00] in
  ~ In (string_of_bytes (sub buf 6 8)) (map fst CRT571Errors) /\
  exists resp w',
    request_decode buf (device_replies []) = Ret (Some resp, Some (errors_New "")) w' /\
    ErrorCode resp = [0x39; 0x39].
Proof.
  intros buf.
  assert (Hm : ~ In (string_of_bytes (sub buf 6 8)) (map fst CRT571Errors)).
  { vm_compute. intros H.
    repeat (destruct H as [H|H]; [discriminate|]). exact H. }
  split; [exact Hm|].
  destruct (negative_reply_unknown_code buf (device_replies []))
    as (resp & w' & Hret & Hcode & _);
    [left; reflexivity|vm_compute; split; discriminate|exact Hm|].
  exists resp, w'. split; [exact Hret|exact Hcode].
Defined.

(** X16.  [String] knows the marker 0x45 only.  A negative reply with the
    marker 0x45 prints as its message, its code and its payload; the same
    reply with the marker 0x4E, which [request] decodes in the same way,
    prints as "Unexpected response type". *)
Theorem String_of_negative_reply (buf : list Z) (w : World) :
  5 <= Uint16 (sub buf 2 4) <= len buf - 4 ->
  (nth 4 buf 0 = 0x45 ->
   exists resp w',
     request_decode buf w = Ret (Some resp, Some (errors_New (ErrorMessage resp))) w' /\
     CRT571Response_String resp
     = ("CRT-571 error response: "
          ++ lookup_string "" CRT571Errors (string_of_bytes (sub buf 6 8))
          ++ "(" ++ string_of_bytes (sub buf 6 8) ++ "), data:["
          ++ string_of_bytes (sub buf 9 (9 + Uint16 (sub buf 2 4) - 5)) ++ "]")%string) /\
  (nth 4 buf 0 = 0x4e ->
   exists resp w',
     request_decode buf w = Ret (Some resp, Some (errors_New (ErrorMessage resp))) w' /\
     CRT571Response_String resp = "Unexpected response type").
Proof.
  intros [H5 Hfit]. split; intros Hty.
  - rewrite request_decode_negative; [|left; exact Hty|exact H5|exact Hfit].
    eexists _, _. split; [reflexivity|].
    unfold CRT571Response_String. simpl. rewrite Hty. reflexivity.
  - rewrite request_decode_negative; [|right; exact Hty|exact H5|exact Hfit].
    eexists _, _. split; [reflexivity|].
    unfold CRT571Response_String. simpl. rewrite Hty. reflexivity.
Qed.

Lemma String_of_negative_reply_witness :
  let buf := [0xf2; 0x00; 0x00; 0x05; 0x4e; 0x32; 0x31; 0x30; 0x39; 0x03; 0xe2] in
  5 <= Uint16 (sub buf 2 4) <= len buf - 4 /\ nth 4 buf 0 = 0x4e /\
  exists resp w',
    request_decode buf (device_replies [])
    = Ret (Some resp, Some (errors_New (ErrorMessage resp))) w' /\
    CRT571Response_String resp = "Unexpected response type".
Proof.
  intros buf.
  assert (H : 5 <= Uint16 (sub buf 2 4) <= len buf - 4) by (vm_compute; split; discriminate).
  split; [exact H|]. split; [reflexivity|].
  destruct (String_of_negative_reply buf (device_replies []) H) as [_ H4e].
  exact (H4e eq_refl).
Defined.

(* ------------------------------------------------------------------ *)
(** ** The facade and the older revisions *)

Lemma sends_first_rev1_request (service : CRT571Service) (cm pm : Z) (data : list Z) :
  len data <= 1015 ->
  sends_first (request_frame service cm pm data) (Rev1.request service cm pm data).
Proof.
  intros Hlen. unfold Rev1.request.
  apply sends_first_log. apply sends_first_log.
  rewrite request_frame_guard.
  destruct (Z.gtb_spec (len data) 1015); [lia|].
  apply sends_first_bind; [apply sends_first_exchange|].
  intros [buf err]. destruct err; [apply sends_only_ret|].
  unfold Rev1.request_decode. sends.
Qed.

(** X17.  Each operation of the facade first writes the nine-byte frame
    of its own command with the parameter it was given and no payload:
    [Command] that of the command it was given, [Initialization] that of
    0x30, [StatusRequest] that of 0x31. *)
Theorem facade_sends_its_command (service : CRT571Service) (command pm : Z) (w : World) :
  (forall cm, request_frame service cm pm []
              = [0xf2; address service; 0x00; 0x03; 0x43; cm; pm; 0x03;
                 bccCalc [0xf2; address service; 0x00; 0x03; 0x43; cm; pm; 0x03]]) /\
  (exists rest, sent (world_of (Command service command pm w))
                = sent w ++ request_frame service command pm [] :: rest) /\
  (exists rest, sent (world_of (Rev1.Initialization service pm w))
                = sent w ++ request_frame service 0x30 pm [] :: rest) /\
  (exists rest, sent (world_of (Rev1.StatusRequest service pm w))
                = sent w ++ request_frame service 0x31 pm [] :: rest).
Proof.
  assert (H0 : len [] <= 1015) by (unfold len; simpl; lia).
  split; [intros cm; reflexivity|]. split; [|split].
  - unfold Command.
    apply (sends_first_log _ _ _ _).
    apply sends_first_bind; [apply sends_first_request; exact H0|].
    intros [res err]. sends.
  - unfold Rev1.Initialization.
    apply (sends_first_log _ _ _ _).
    apply sends_first_bind; [apply sends_first_rev1_request; exact H0|].
    intros r. sends.
  - unfold Rev1.StatusRequest.
    apply (sends_first_log _ _ _ _).
    apply sends_first_bind; [apply sends_first_rev1_request; exact H0|].
    intros r. sends.
Qed.

Lemma firstn_plus {T} (a b : nat) (l : list T) :
  firstn (a + b) l = firstn a l ++ firstn b (skipn a l).
Proof.
  revert l. induction a as [|a IH]; intros l; [reflexivity|].
  destruct l as [|x l]; simpl.
  - rewrite firstn_nil. reflexivity.
  - f_equal. apply IH.
Qed.

Lemma sub_split (s : list Z) (lo mid hi : Z) :
  0 <= lo -> lo <= mid -> mid <= hi ->
  sub s lo hi = sub s lo mid ++ sub s mid hi.
Proof.
  intros H1 H2 H3. unfold sub.
  replace (Z.to_nat (hi - lo)) with (Z.to_nat (mid - lo) + Z.to_nat (hi - mid))%nat by lia.
  rewrite firstn_plus, skipn_skipn. do 3 f_equal. lia.
Qed.

(** X18.  In the revision of [part_001] a positive reply is returned with
    the status bytes [buf[7:10]] and with [L] bytes of data from index 10,
    where [L] is the declared length: the payload [buf[10 : 10+L-6]] that
    is logged, and the six bytes after it.  When these six bytes are not all
    within the buffer, decoding panics although the payload is. *)
Theorem rev1_positive_reply_data (buf : list Z) (w : World) :
  nth 4 buf 0 = CRT571_PMT ->
  6 <= Uint16 (sub buf 2 4) <= len buf - 4 ->
  let L := Uint16 (sub buf 2 4) in
  exists w',
    Rev1.request_decode buf w =
    (if L <=? len buf - 10
     then Ret (sub buf 7 10, sub buf 10 (10 + L), None) w'
     else Panic (slice_bounds_out_of_range 10 (10 + L) (len buf)) w') /\
    sub buf 10 (10 + L) = sub buf 10 (10 + L - 6) ++ sub buf (10 + L - 6) (10 + L).
Proof.
  intros Hty [H6 Hfit] L. unfold Rev1.request_decode. fold L.
  rewrite bind_slice_ok by lia.
  rewrite bind_index_ok by lia.
  change (Z.to_nat 4) with 4%nat. rewrite Hty. rewrite Z.eqb_refl.
  rewrite bind_slice_ok by lia.
  rewrite !bind_index_ok by lia.
  fold L. rewrite bind_slice_ok by lia.
  rewrite bind_log.
  rewrite bind_slice_ok by lia.
  destruct (Z.leb_spec L (len buf - 10)) as [Hin|Hout].
  - rewrite bind_slice_ok by lia. unfold ret.
    eexists. split; [reflexivity|]. apply sub_split; lia.
  - rewrite bind_slice_panic by lia.
    eexists. split; [reflexivity|]. apply sub_split; lia.
Qed.

Lemma rev1_positive_reply_data_witness :
  let buf := [0xf2; 0x00; 0x00; 0x07; 0x50; 0x31; 0x30; 0x32; 0x32; 0x30;
              0x41; 0x03; 0xd6; 0x00; 0x00; 0x00; 0x00; 0x00] in
  nth 4 buf 0 = CRT571_PMT /\
  6 <= Uint16 (sub buf 2 4) <= len buf - 4 /\
  exists w',
    Rev1.request_decode buf (device_replies [])
    = Ret ([0x32; 0x32; 0x30], [0x41; 0x03; 0xd6; 0x00; 0x00; 0x00; 0x00], None) w'.
Proof.
  intros buf.
  assert (H : 6 <= Uint16 (sub buf 2 4) <= len buf - 4) by (vm_compute; split; discriminate).
  split; [reflexivity|]. split; [exact H|].
  destruct (rev1_positive_reply_data buf (device_replies []) eq_refl H) as (w' & Hret & _).
  exists w'. exact Hret.
Defined.

Lemma rev0_frame_guard (service : CRT571Service) (cm pm : Z) (data : list Z) :
  (len (Rev0.MakeRequest_frame service cm pm data) >? CRT571_BUFFER_MAX_LENGTH)
  = (len data >? 1014).
Proof.
  rewrite rev0_frame_len. unfold CRT571_BUFFER_MAX_LENGTH.
  destruct (Z.gtb_spec (len data + 10) 1024), (Z.gtb_spec (len data) 1014);
    try reflexivity; lia.
Qed.

Lemma sends_first_rev0_MakeRequest
      (service : CRT571Service) (cm pm : Z) (data : list Z) :
  len data <= 1014 ->
  sends_first (Rev0.MakeRequest_frame service cm pm data)
              (Rev0.MakeRequest service cm pm data).
Proof.
  intros Hlen. unfold Rev0.MakeRequest.
  rewrite rev0_frame_guard.
  destruct (Z.gtb_spec (len data) 1014); [lia|].
  apply sends_first_bind.
  - unfold Rev0.Exchange. apply sends_first_Write. intros [n err]. sends.
  - intros [buf err]. sends.
Qed.

(** X19.  In [src/crt571.go] the frame has [len(payload) + 10] bytes, so
    [MakeRequest] returns its size error, leaving the port and the log
    untouched, exactly when [len(payload) > 1014]; and exactly when
    [len(payload) <= 1014] the frame is written to the port. *)
Theorem rev0_size_check
  (service : CRT571Service) (cm pm : Z) (data : list Z) (w : World) :
  len (Rev0.MakeRequest_frame service cm pm data) = len data + 10 /\
  (Rev0.MakeRequest service cm pm data w
   = Ret ([], Some (errors_New "Exceed max packet size for CRT-571")) w
   <-> 1014 < len data) /\
  ((exists rest, sent (world_of (Rev0.MakeRequest service cm pm data w))
                 = sent w ++ Rev0.MakeRequest_frame service cm pm data :: rest)
   <-> len data <= 1014).
Proof.
  assert (Hno : forall (l : list (list Z)) x rest, l = l ++ x :: rest -> False).
  { intros l x rest H. apply (f_equal (@length _)) in H.
    rewrite length_app in H. simpl in H. lia. }
  assert (Hrej : 1014 < len data ->
                 Rev0.MakeRequest service cm pm data w
                 = Ret ([], Some (errors_New "Exceed max packet size for CRT-571")) w).
  { intros Hgt. unfold Rev0.MakeRequest. rewrite rev0_frame_guard.
    destruct (Z.gtb_spec (len data) 1014); [reflexivity|lia]. }
  split; [apply rev0_frame_len|]. split; split.
  - intros Hret.
    destruct (Z.lt_ge_cases 1014 (len data)) as [Hgt|Hle]; [exact Hgt|exfalso].
    destruct (sends_first_rev0_MakeRequest service cm pm data ltac:(lia) w) as [rest Hrest].
    rewrite Hret in Hrest. simpl in Hrest. exact (Hno _ _ _ Hrest).
  - exact Hrej.
  - intros [rest Hrest].
    destruct (Z.lt_ge_cases 1014 (len data)) as [Hgt|Hle]; [exfalso|lia].
    rewrite (Hrej Hgt) in Hrest. simpl in Hrest. exact (Hno _ _ _ Hrest).
  - intros Hle. apply sends_first_rev0_MakeRequest. exact Hle.
Qed.

(* ------------------------------------------------------------------ *)
(** ** From the device's reply to the caller's response *)



Section PositiveReply.

Variables (a cme pme st0 st1 st2 bcc : Z) (payload : list Z).

(** A positive reply as it is on the wire; the address, the echoed
    command and parameter and the checksum are whatever the device sent. *)
Let reply : list Z :=
  [CRT571_STX; a] ++ PutUint16 (len payload + 6)
    ++ [CRT571_PMT; cme; pme; st0; st1; st2] ++ payload ++ [CRT571_ETX; bcc].



End PositiveReply.

Section NegativeReply.

Variables (a emt cme e1 e0 pme bcc : Z) (payload : list Z).

(** A negative reply as it is on the wire. *)
Let reply : list Z :=
  [CRT571_STX; a] ++ PutUint16 (len payload + 5)
    ++ [emt; cme; e1; e0; pme] ++ payload ++ [CRT571_ETX; bcc].



End NegativeReply.






Lemma rev0_Exchange_buffer (data : list Z) :
  returns (Rev0.Exchange data)
          (fun r => let '(buf, err) := r in err = None -> len buf = 1024).
Proof.
  unfold Rev0.Exchange.
  apply returns_bind_any. intros [n err].
  destruct err as [e|]; [apply returns_ret; discriminate|].
  eapply returns_bind; [apply returns_Read; rewrite len_fresh_buffer; lia|].
  intros [d err] Hd. cbn [fst] in Hd. rewrite len_fresh_buffer in Hd.
  destruct err as [e|]; [apply returns_ret; discriminate|].
  destruct (len d <? 1); apply returns_ret; [discriminate|].
  intros _. rewrite len_store; rewrite ?len_fresh_buffer; lia.
Qed.

Lemma rev0_Exchange_no_panic (data : list Z) (w w' : World) (p : panic) :
  Rev0.Exchange data w <> Panic p w'.
Proof.
  unfold Rev0.Exchange, bind, port_Write, port_Read, ret.
  destruct (wr w) as [|[e|] wr']; cbn [rx wr sent logs];
    try discriminate;
    destruct (rx w) as [|[d [e|]] rx']; try discriminate;
    destruct (_ <? 1); discriminate.
Qed.

(** X22.  [MakeRequest] of [src/crt571.go] never ends in a run-time
    panic, whatever the port delivers: the one buffer it indexes always has
    1024 bytes. *)
Theorem rev0_MakeRequest_never_panics
  (service : CRT571Service) (cm pm : Z) (data : list Z) (w w' : World) (p : panic) :
  Rev0.MakeRequest service cm pm data w <> Panic p w'.
Proof.
  unfold Rev0.MakeRequest.
  destruct (_ >? _); [discriminate|].
  destruct (Rev0.Exchange (Rev0.MakeRequest_frame service cm pm data) w)
    as [[buf err] w1|p1 w1|w1] eqn:E.
  - rewrite (bind_Ret _ _ _ _ _ E). cbv beta iota.
    destruct err as [e|]; [discriminate|].
    pose proof (rev0_Exchange_buffer _ _ _ _ E eq_refl) as Hlen.
    rewrite bind_index_ok by lia.
    destruct (_ =? CRT571_PMT).
    + rewrite bind_slice_ok by lia. discriminate.
    + destruct (_ =? CRT571_EMT); discriminate.
  - exfalso. exact (rev0_Exchange_no_panic _ _ _ _ E).
  - rewrite (bind_Blocked _ _ _ _ E). discriminate.
Qed.
